(** * The WebSocket chat service: event handlers over socket.io rooms

    A shallow embedding of [services/websocket-api]: the helpers
    ([utils/helpers.js]), the chat, room and user event handlers
    ([events/chatEvents.js], [events/roomEvents.js], [events/userEvents.js])
    and the part of socket.io they drive (rooms, the connected sockets and
    the emit operators).

    Every handler is a function from the server state and the payload to
    the new state and the list of packets it sends.  The handlers embedded
    here contain no [await], so each one runs to completion in one turn of
    the event loop; a handler that throws is modelled by a [Throw]
    completion.  [index.js] adds listeners to [join_room], [send_message]
    and [disconnect] that only write to the console; the first two are
    embedded apart from the handlers, as [log_join_room] and
    [log_send_message]. *)

From stdpp Require Import gmap strings pretty list.
From Stdlib Require Import ZArith Lia Ascii.

Open Scope string_scope.
Local Set Warnings "-register-all,-clear-no-such-hyp".

(** ** JavaScript values *)

(** The values a payload or an emitted packet is made of, as
    [JSON.parse] gives them.  A number is given by its integer literal
    (ids and counts are integers) and is the double nearest to it; an
    object is the list of its own properties, the first binding of a key
    being the one that is read. *)
Inductive value : Type :=
| VUndefined
| VNull
| VBool (b : bool)
| VNum (n : Z)
| VStr (s : string)
| VArr (elts : list value)
| VObj (props : list (string * value)).

(** An exception object, as far as [handleSocketError] reads it. *)
Record exn : Type := Exn { message : string; code : value }.

Inductive completion (A : Type) : Type :=
| Normal (a : A)
| Throw (e : exn).
Arguments Normal {A} a.
Arguments Throw {A} e.

Module JS.

(** [!!v] *)
Definition truthy (v : value) : bool :=
  match v with
  | VUndefined | VNull => false
  | VBool b => b
  | VNum n => negb (n =? 0)%Z
  | VStr s => negb (String.eqb s "")
  | VArr _ | VObj _ => true
  end.

(** [v === undefined || v === null] *)
Definition nullish (v : value) : bool :=
  match v with
  | VUndefined | VNull => true
  | _ => false
  end.

Fixpoint assoc (k : string) (props : list (string * value)) : value :=
  match props with
  | [] => VUndefined
  | (k', v) :: rest => if String.eqb k k' then v else assoc k rest
  end.

(** [v.k] for a payload field [k] on a value that is not nullish: the
    property of an object, [undefined] on anything else. *)
Definition get (k : string) (v : value) : value :=
  match v with
  | VObj props => assoc k props
  | _ => VUndefined
  end.

(** [a || b] *)
Definition or (a b : value) : value := if truthy a then a else b.

(** A destructuring default, [{ k = d } = data]: it applies to
    [undefined] only. *)
Definition dflt (v d : value) : value :=
  match v with
  | VUndefined => d
  | _ => v
  end.

Fixpoint join (sep : string) (l : list string) : string :=
  match l with
  | [] => ""
  | [s] => s
  | s :: rest => s +:+ sep +:+ join sep rest
  end.

(** *** Printing a number

    [Number::toString] on the double nearest to a non-negative integer:
    the shortest digits that read back as the same double, written in
    full up to 21 digits and with an exponent beyond. *)

(** The double nearest to [a], ties to even; [None] for [Infinity]. *)
Definition to_double (a : Z) : option Z :=
  if (a <? 2 ^ 53)%Z then Some a
  else
    let shift := (Z.log2 a - 52)%Z in
    let q := Z.shiftr a shift in
    let r := (a - Z.shiftl q shift)%Z in
    let half := Z.shiftl 1 (shift - 1) in
    let q' := if (half <? r)%Z || ((r =? half)%Z && Z.odd q)
              then (q + 1)%Z else q in
    let d := Z.shiftl q' shift in
    if (d <? 2 ^ 1024)%Z then Some d else None.

Definition reads_as (m v : Z) : bool :=
  match to_double v with
  | Some d => (d =? m)%Z
  | None => false
  end.

Definition decimal (a : Z) : string := pretty (Z.to_N a).

(** The number of [k] significant digits nearest to the double [m] that
    reads back as [m], if there is one. *)
Definition with_digits (m : Z) (k : Z) : option Z :=
  let nd := Z.of_nat (String.length (decimal m)) in
  let p := (10 ^ Z.max 0 (nd - k))%Z in
  let lo := (m / p * p)%Z in
  let hi := (lo + p)%Z in
  match reads_as m lo, reads_as m hi with
  | true, true =>
      if (m - lo <? hi - m)%Z then Some lo
      else if (hi - m <? m - lo)%Z then Some hi
      else if Z.even (lo / p) then Some lo else Some hi
  | true, false => Some lo
  | false, true => Some hi
  | false, false => None
  end.

Fixpoint shortest (m : Z) (ks : list Z) : Z :=
  match ks with
  | [] => m
  | k :: rest =>
      match with_digits m k with
      | Some v => v
      | None => shortest m rest
      end
  end.

Fixpoint strip_zeros (rev_digits : list ascii) : list ascii :=
  match rev_digits with
  | "0"%char :: rest => strip_zeros rest
  | _ => rev_digits
  end.

(** [d.ddde+x] for the digits of [v], which has more than 21 of them. *)
Definition exponent_form (v : Z) : string :=
  let digits := decimal v in
  let significant :=
    rev (strip_zeros (rev (String.list_ascii_of_string digits))) in
  match significant with
  | [] => "0"
  | d :: [] =>
      String d ("e+" +:+ decimal (Z.of_nat (String.length digits) - 1))
  | d :: more =>
      String d ("." +:+ String.string_of_list_ascii more +:+ "e+"
                +:+ decimal (Z.of_nat (String.length digits) - 1))
  end.

Definition print_natural (a : Z) : string :=
  if (a <? 2 ^ 53)%Z then decimal a
  else
    match to_double a with
    | None => "Infinity"
    | Some m =>
        let v := shortest m [1; 2; 3; 4; 5; 6; 7; 8; 9; 10; 11; 12; 13; 14;
                             15; 16; 17]%Z in
        if (String.length (decimal v) <=? 21)%nat then decimal v
        else exponent_form v
    end.

Definition number_toString (n : Z) : string :=
  if (n <? 0)%Z then "-" +:+ print_natural (- n) else print_natural n.

(** *** Printing a value *)

Fixpoint has_key (k : string) (props : list (string * value)) : bool :=
  match props with
  | [] => false
  | (k', _) :: rest => String.eqb k k' || has_key k rest
  end.

(** What V8 raises when neither [toString] nor [valueOf] of an object
    gives a primitive. *)
Definition not_primitive : exn :=
  Exn "Cannot convert object to primitive value" VUndefined.

Fixpoint join_all (parts : list (completion string))
  : completion (list string) :=
  match parts with
  | [] => Normal []
  | Throw error :: _ => Throw error
  | Normal s :: rest =>
      match join_all rest with
      | Normal l => Normal (s :: l)
      | Throw error => Throw error
      end
  end.

(** The string a template literal puts for [${v}].  An object prints as
    "[object Object]" unless it has a property [toString] of its own:
    that property, which came with the payload, is not a function, and
    the [valueOf] that is tried next gives no primitive, so the
    conversion throws.  An array prints its elements, [null] and
    [undefined] as nothing, with commas between, and throws when one of
    them does. *)
Fixpoint toString (v : value) : completion string :=
  match v with
  | VUndefined => Normal "undefined"
  | VNull => Normal "null"
  | VBool true => Normal "true"
  | VBool false => Normal "false"
  | VNum n => Normal (number_toString n)
  | VStr s => Normal s
  | VArr elts =>
      match join_all (map (fun x => if nullish x then Normal ""
                                    else toString x) elts) with
      | Normal parts => Normal (join "," parts)
      | Throw error => Throw error
      end
  | VObj props =>
      if has_key "toString" props then Throw not_primitive
      else Normal "[object Object]"
  end.

(** ["undefined"] or ["null"], for the message of an error about a value
    that is one of them. *)
Definition nullish_name (v : value) : string :=
  match v with
  | VNull => "null"
  | _ => "undefined"
  end.

(** [s.slice(-n)]: the last [n] characters, all of [s] when it is
    shorter. *)
Definition slice_last (n : nat) (s : string) : string :=
  String.substring (String.length s - n) n s.

End JS.

(** What V8 raises for [const { k, ... } = data] when [data] is
    [undefined] or [null]. *)
Definition destructure_error (k : string) (data : value) : exn :=
  Exn ("Cannot destructure property '" +:+ k +:+ "' of 'data' as it is "
         +:+ JS.nullish_name data +:+ ".") VUndefined.

(** ** The server state *)

(** [createDemoUser]'s object.  [firstName], [lastName] and [avatar] are
    assigned from payloads by [update_profile], so they hold any value;
    [lastSeen] is the reading of the clock, in milliseconds. *)
Record User : Type := mkUser {
  id : string;
  firstName : value;
  lastName : value;
  email : string;
  avatar : value;
  role : string;
  isOnline : bool;
  lastSeen : N;
}.

(** The state the handlers read and write.
    - [connected]: the keys of [io.sockets.sockets];
    - [rooms]: the adapter's [rooms] map, from a room name to the ids of
      the sockets in it (a room that becomes empty is deleted);
    - [user], [userId]: the properties [socket.user] and [socket.userId]
      that [getUserForSocket] puts on a socket object, by socket id; no
      binding is [undefined]. *)
Record Server : Type := mkServer {
  connected : gset string;
  rooms : gmap string (gset string);
  user : gmap string User;
  userId : gmap string string;
}.

(** What a handler reads from its environment in one run: [Date.now()],
    [new Date().toISOString()] and
    [Math.random().toString(36).substr(2, 9)]. *)
Record Env : Type := mkEnv {
  now : N;
  iso : string;
  rnd : string;
}.

(** A packet sent to the client of socket [dest]. *)
Record Delivery : Type := mkDelivery {
  dest : string;
  event : string;
  payload : value;
}.

(** The result of a handler that returns. *)
Definition Result : Type := Server * list Delivery.

(** ** socket.io *)

(** The operations of the library the handlers call, each with the
    behaviour socket.io documents; the names are the library's. *)
Module Sio.

(** [adapter.rooms.get(room)], empty for a room that does not exist. *)
Definition members (st : Server) (room : string) : gset string :=
  default ∅ (rooms st !! room).

Definition set_rooms (r : gmap string (gset string)) (st : Server) : Server :=
  mkServer (connected st) r (user st) (userId st).

(** [socket.join(room)] *)
Definition join (sid room : string) (st : Server) : Server :=
  set_rooms (<[room := {[sid]} ∪ members st room]> (rooms st)) st.

(** [socket.leave(room)] *)
Definition leave (sid room : string) (st : Server) : Server :=
  match rooms st !! room with
  | None => st
  | Some m =>
      let m' := m ∖ {[sid]} in
      if decide (m' = ∅) then set_rooms (delete room (rooms st)) st
      else set_rooms (<[room := m']> (rooms st)) st
  end.

(** One packet to each socket of [to]. *)
Definition send (to : gset string) (ev : string) (p : value) : list Delivery :=
  (fun r => mkDelivery r ev p) <$> elements to.

(** [socket.emit(ev, p)] *)
Definition emit (sid : string) (ev : string) (p : value) : list Delivery :=
  [mkDelivery sid ev p].

(** [io.emit(ev, p)] *)
Definition io_emit (st : Server) (ev : string) (p : value) : list Delivery :=
  send (connected st) ev p.

(** [io.to(room).emit(ev, p)]: the sockets of the room that are
    connected. *)
Definition io_to_emit (st : Server) (room ev : string) (p : value)
  : list Delivery :=
  send (members st room ∩ connected st) ev p.

(** [socket.to(room).emit(ev, p)]: as [io.to], except the socket
    itself. *)
Definition to_emit (st : Server) (sid room ev : string) (p : value)
  : list Delivery :=
  send ((members st room ∩ connected st) ∖ {[sid]}) ev p.

(** [socket.broadcast.emit(ev, p)] *)
Definition broadcast_emit (st : Server) (sid ev : string) (p : value)
  : list Delivery :=
  send (connected st ∖ {[sid]}) ev p.

(** [socket.leaveAll()] *)
Definition leaveAll (sid : string) (st : Server) : Server :=
  set_rooms (filter (fun kv => kv.2 ≠ ∅) ((fun m => m ∖ {[sid]}) <$> rooms st)) st.

(** What [Socket._onclose] does before it emits [disconnect]: the
    socket leaves all its rooms and is removed from the connected
    sockets. *)
Definition cleanup (sid : string) (st : Server) : Server :=
  let st' := leaveAll sid st in
  mkServer (connected st' ∖ {[sid]}) (rooms st') (user st') (userId st').

End Sio.

(** The events one socket received, in order. *)
Definition received (sid : string) (out : list Delivery) : list (string * value) :=
  omap (fun d => if decide (dest d = sid) then Some (event d, payload d) else None) out.

(** ** utils/helpers.js *)

Definition createDemoUser (e : Env) (socketId : string) : User :=
  {| id := socketId;
     firstName := VStr ("User" +:+ JS.slice_last 4 socketId);
     lastName := VStr "Demo";
     email := "user" +:+ JS.slice_last 4 socketId +:+ "@demo.com";
     avatar := VNull;
     role := "user";
     isOnline := true;
     lastSeen := now e |}.

(** [socket.user] is an object when it is set, so [!socket.user] holds
    exactly when the socket has no user yet. *)
Definition getUserForSocket (e : Env) (socket : string) (st : Server)
  : User * Server :=
  match user st !! socket with
  | Some u => (u, st)
  | None =>
      let u := createDemoUser e socket in
      (u, mkServer (connected st) (rooms st)
            (<[socket := u]> (user st)) (<[socket := id u]> (userId st)))
  end.

(** [`room:${roomId}`]: throws when the room id cannot be printed. *)
Definition getRoomName (roomId : value) : completion string :=
  match JS.toString roomId with
  | Normal text => Normal ("room:" +:+ text)
  | Throw error => Throw error
  end.

(** [console.error] has no effect on the state. *)
Definition handleSocketError (socket : string) (error : exn) : list Delivery :=
  Sio.emit socket "error"
    (VObj [("message", JS.or (VStr (message error)) (VStr "An error occurred"));
           ("code", JS.or (code error) (VStr "UNKNOWN_ERROR"))]).

(** [const { k, ... } = data]: throws on [undefined] and [null]. *)
Definition destructure (k : string) (data : value) : completion value :=
  if JS.nullish data then Throw (destructure_error k data) else Normal data.

Definition error_packet (socket msg : string) : list Delivery :=
  Sio.emit socket "error" (VObj [("message", VStr msg)]).

(** [{ id, firstName, lastName, avatar }] of a user *)
Definition user_card (u : User) : value :=
  VObj [("id", VStr (id u)); ("firstName", firstName u);
        ("lastName", lastName u); ("avatar", avatar u)].

(** [{ id, firstName, lastName }] of a user *)
Definition user_name (u : User) : value :=
  VObj [("id", VStr (id u)); ("firstName", firstName u);
        ("lastName", lastName u)].

(** ** events/chatEvents.js *)

Definition join_room (e : Env) (st : Server) (socket : string) (data : value)
  : Result :=
  match destructure "roomId" data with
  | Throw error => (st, handleSocketError socket error)
  | Normal data =>
      let roomId := JS.get "roomId" data in
      if negb (JS.truthy roomId) then
        (st, error_packet socket "Room ID is required")
      else
        let '(u, st) := getUserForSocket e socket st in
        match getRoomName roomId with
        | Throw error => (st, handleSocketError socket error)
        | Normal roomName =>
            let st := Sio.join socket roomName st in
            (st,
             (Sio.to_emit st socket roomName "user_joined"
                (VObj [("userId", VStr (id u)); ("user", user_card u);
                       ("timestamp", VStr (iso e))])
              ++ Sio.emit socket "room_joined"
                   (VObj [("roomId", roomId);
                          ("message", VStr "Successfully joined room")]))%list)
        end
  end.

Definition leave_room (e : Env) (st : Server) (socket : string) (data : value)
  : Result :=
  match destructure "roomId" data with
  | Throw error => (st, handleSocketError socket error)
  | Normal data =>
      let roomId := JS.get "roomId" data in
      if negb (JS.truthy roomId) then
        (st, error_packet socket "Room ID is required")
      else
        let '(u, st) := getUserForSocket e socket st in
        match getRoomName roomId with
        | Throw error => (st, handleSocketError socket error)
        | Normal roomName =>
            let st := Sio.leave socket roomName st in
            (st,
             (Sio.to_emit st socket roomName "user_left"
                (VObj [("userId", VStr (id u)); ("user", user_card u);
                       ("timestamp", VStr (iso e))])
              ++ Sio.emit socket "room_left"
                   (VObj [("roomId", roomId);
                          ("message", VStr "Successfully left room")]))%list)
        end
  end.

(** The [message] object of [send_message]; building it throws when
    [`Room ${roomId}`] does. *)
Definition make_message (e : Env) (u : User) (roomId content type replyToId : value)
  : completion value :=
  match JS.toString roomId with
  | Throw error => Throw error
  | Normal text =>
      Normal
        (VObj [("id", VStr ("msg_" +:+ pretty (now e) +:+ "_" +:+ rnd e));
               ("content", content);
               ("type", type);
               ("senderId", VStr (id u));
               ("roomId", roomId);
               ("replyToId", replyToId);
               ("createdAt", VStr (iso e));
               ("sender", user_card u);
               ("room", VObj [("id", roomId);
                              ("name", VStr ("Room " +:+ text))])])
  end.

Definition send_message (e : Env) (st : Server) (socket : string) (data : value)
  : Result :=
  match destructure "roomId" data with
  | Throw error => (st, handleSocketError socket error)
  | Normal data =>
      let roomId := JS.get "roomId" data in
      let content := JS.get "content" data in
      let type := JS.dflt (JS.get "type" data) (VStr "text") in
      let replyToId := JS.dflt (JS.get "replyToId" data) VNull in
      if negb (JS.truthy roomId) || negb (JS.truthy content) then
        (st, error_packet socket "Room ID and content are required")
      else
        let '(u, st) := getUserForSocket e socket st in
        match make_message e u roomId content type replyToId with
        | Throw error => (st, handleSocketError socket error)
        | Normal message =>
            match getRoomName roomId with
            | Throw error => (st, handleSocketError socket error)
            | Normal roomName =>
                (st,
                 (Sio.io_to_emit st roomName "message_sent"
                    (VObj [("message", message)])
                  ++ Sio.io_to_emit st roomName "new_message" message)%list)
            end
        end
  end.

(** [typing_start] and [typing_stop] are plain functions with no [try]:
    what the destructuring or [getRoomName] throws leaves the handler.
    Nothing catches it then and the process ends, so a [Throw] carries no
    state. *)
Definition typing_start (e : Env) (st : Server) (socket : string) (data : value)
  : completion Result :=
  match destructure "roomId" data with
  | Throw error => Throw error
  | Normal data =>
      let roomId := JS.get "roomId" data in
      if JS.truthy roomId then
        let '(u, st) := getUserForSocket e socket st in
        match getRoomName roomId with
        | Throw error => Throw error
        | Normal roomName =>
            Normal (st,
                    Sio.to_emit st socket roomName "user_typing"
                      (VObj [("userId", VStr (id u)); ("user", user_name u);
                             ("timestamp", VStr (iso e))]))
        end
      else Normal (st, [])
  end.

Definition typing_stop (e : Env) (st : Server) (socket : string) (data : value)
  : completion Result :=
  match destructure "roomId" data with
  | Throw error => Throw error
  | Normal data =>
      let roomId := JS.get "roomId" data in
      if JS.truthy roomId then
        let '(u, st) := getUserForSocket e socket st in
        match getRoomName roomId with
        | Throw error => Throw error
        | Normal roomName =>
            Normal (st,
                    Sio.to_emit st socket roomName "user_stopped_typing"
                      (VObj [("userId", VStr (id u));
                             ("timestamp", VStr (iso e))]))
        end
      else Normal (st, [])
  end.

(** ** events/roomEvents.js *)

(** The id [create_room] gives a room. *)
Definition room_id (e : Env) : string :=
  "room_" +:+ pretty (now e) +:+ "_" +:+ rnd e.

Definition create_room (e : Env) (st : Server) (socket : string) (data : value)
  : Result :=
  match destructure "name" data with
  | Throw error => (st, handleSocketError socket error)
  | Normal data =>
      let name := JS.get "name" data in
      let description := JS.get "description" data in
      let type := JS.dflt (JS.get "type" data) (VStr "public") in
      let maxMembers := JS.dflt (JS.get "maxMembers" data) (VNum 100) in
      if negb (JS.truthy name) then
        (st, error_packet socket "Room name is required")
      else
        let '(u, st) := getUserForSocket e socket st in
        let room :=
          VObj [("id", VStr (room_id e)); ("name", name);
                ("description", description); ("type", type);
                ("createdById", VStr (id u)); ("maxMembers", maxMembers);
                ("createdAt", VStr (iso e))] in
        match getRoomName (JS.get "id" room) with
        | Throw error => (st, handleSocketError socket error)
        | Normal roomName =>
            let st := Sio.join socket roomName st in
            (st,
             (Sio.io_emit st "room_created"
                (VObj [("room",
                        VObj [("id", JS.get "id" room);
                              ("name", JS.get "name" room);
                              ("description", JS.get "description" room);
                              ("type", JS.get "type" room);
                              ("createdBy", user_name u);
                              ("memberCount", VNum 1);
                              ("createdAt", JS.get "createdAt" room)])])
              ++ Sio.emit socket "room_created_success"
                   (VObj [("room", room);
                          ("message", VStr "Room created successfully")]))%list)
        end
  end.

Definition get_room_members (st : Server) (socket : string) (data : value)
  : Result :=
  match destructure "roomId" data with
  | Throw error => (st, handleSocketError socket error)
  | Normal data =>
      let roomId := JS.get "roomId" data in
      if negb (JS.truthy roomId) then
        (st, error_packet socket "Room ID is required")
      else
        (st,
         Sio.emit socket "room_members"
           (VObj [("roomId", roomId); ("members", VArr []);
                  ("count", VNum 0)]))
  end.

(** ** events/userEvents.js *)

(** The [disconnect] handler.  Nothing in its [try] block throws. *)
Definition disconnect (e : Env) (st : Server) (socket : string) : Result :=
  let '(u, st) := getUserForSocket e socket st in
  (st,
   Sio.broadcast_emit st socket "user_offline"
     (VObj [("userId", VStr (id u)); ("timestamp", VStr (iso e))])).

Definition set_user (socket : string) (u : User) (st : Server) : Server :=
  mkServer (connected st) (rooms st) (<[socket := u]> (user st)) (userId st).

Definition update_profile (e : Env) (st : Server) (socket : string) (data : value)
  : Result :=
  match destructure "firstName" data with
  | Throw error => (st, handleSocketError socket error)
  | Normal data =>
      let first := JS.get "firstName" data in
      let last := JS.get "lastName" data in
      let av := JS.get "avatar" data in
      let '(u, st) := getUserForSocket e socket st in
      let u := if JS.truthy first
               then mkUser (id u) first (lastName u) (email u) (avatar u)
                      (role u) (isOnline u) (lastSeen u)
               else u in
      let u := if JS.truthy last
               then mkUser (id u) (firstName u) last (email u) (avatar u)
                      (role u) (isOnline u) (lastSeen u)
               else u in
      let u := if JS.truthy av
               then mkUser (id u) (firstName u) (lastName u) (email u) av
                      (role u) (isOnline u) (lastSeen u)
               else u in
      let st := set_user socket u st in
      (st,
       (Sio.broadcast_emit st socket "user_profile_updated"
          (VObj [("userId", VStr (id u)); ("user", user_card u);
                 ("timestamp", VStr (iso e))])
        ++ Sio.emit socket "profile_updated"
             (VObj [("user", user_card u);
                    ("message", VStr "Profile updated successfully")]))%list)
  end.

(** ** The transport *)

(** A disconnect signalled by the transport, as socket.io's
    [Socket._onclose] handles it: nothing for a socket that is no longer
    connected; otherwise the socket leaves its rooms and the connected
    sockets, and then the [disconnect] handler runs. *)
Definition transport_disconnect (e : Env) (st : Server) (socket : string)
  : Result :=
  if decide (socket ∈ connected st)
  then disconnect e (Sio.cleanup socket st) socket
  else (st, []).

(** ** The other helpers of utils/helpers.js *)

(** [`user:${userId}`]: throws when the user id cannot be printed. *)
Definition getUserRoomName (userId : value) : completion string :=
  match JS.toString userId with
  | Normal text => Normal ("user:" +:+ text)
  | Throw error => Throw error
  end.

(** What V8 raises for [x.k] when [x] is [undefined] or [null]. *)
Definition read_error (k : string) (x : value) : exn :=
  Exn ("Cannot read properties of " +:+ JS.nullish_name x +:+ " (reading '"
         +:+ k +:+ "')") VUndefined.

(** The own properties of an object other than [k]: the rest of
    [const { k, ...rest } = v]. *)
Definition without (k : string) (props : list (string * value))
  : list (string * value) :=
  filter (fun kv => kv.1 ≠ k) props.

(** [sanitizeMessage(message)].  The destructuring throws on a message
    that is [undefined] or [null]; [sender.id] throws when the message has
    no sender.  The messages the handlers build are objects. *)
Definition sanitizeMessage (message : value) : completion value :=
  match message with
  | VUndefined | VNull =>
      Throw (Exn ("Cannot destructure property 'sender' of 'message' as it is "
                    +:+ JS.nullish_name message +:+ ".") VUndefined)
  | VObj props =>
      let sender := JS.assoc "sender" props in
      if JS.nullish sender then Throw (read_error "id" sender)
      else
        Normal
          (VObj (without "sender" props
                 ++ [("sender",
                      VObj [("id", JS.get "id" sender);
                            ("firstName", JS.get "firstName" sender);
                            ("lastName", JS.get "lastName" sender);
                            ("avatar", JS.get "avatar" sender)])])%list)
  | _ => Throw (read_error "id" VUndefined)
  end.

(** ** The other handlers of events/chatEvents.js *)

(** [socket.rooms], the names of the rooms the socket is in, in the order
    of the model's map.  The room socket.io names after the socket's own
    id is not among them: a socket id has no colon, so the handlers that
    walk [socket.rooms] skip it. *)
Definition socket_rooms (st : Server) (socket : string) : list string :=
  (filter (fun kv : string * gset string => socket ∈ kv.2)
     (map_to_list (rooms st))).*1.

(** [socket.rooms.forEach(roomName => { if (roomName.startsWith('room:'))
    io.to(roomName).emit(ev, p) })] *)
Definition emit_to_own_rooms (st : Server) (socket ev : string) (p : value)
  : list Delivery :=
  flat_map (fun roomName =>
              if String.prefix "room:" roomName
              then Sio.io_to_emit st roomName ev p
              else [])
    (socket_rooms st socket).

Definition edit_message (e : Env) (st : Server) (socket : string) (data : value)
  : Result :=
  match destructure "messageId" data with
  | Throw error => (st, handleSocketError socket error)
  | Normal data =>
      let messageId := JS.get "messageId" data in
      let content := JS.get "content" data in
      if negb (JS.truthy messageId) || negb (JS.truthy content) then
        (st, error_packet socket "Message ID and content are required")
      else
        let '(u, st) := getUserForSocket e socket st in
        let editedMessage :=
          VObj [("id", messageId); ("content", content);
                ("isEdited", VBool true); ("editedAt", VStr (iso e));
                ("sender", user_name u)] in
        (st, emit_to_own_rooms st socket "message_edited" editedMessage)
  end.

Definition delete_message (e : Env) (st : Server) (socket : string) (data : value)
  : Result :=
  match destructure "messageId" data with
  | Throw error => (st, handleSocketError socket error)
  | Normal data =>
      let messageId := JS.get "messageId" data in
      if negb (JS.truthy messageId) then
        (st, error_packet socket "Message ID is required")
      else
        let '(u, st) := getUserForSocket e socket st in
        let deletedMessage :=
          VObj [("messageId", messageId); ("deletedBy", VStr (id u));
                ("timestamp", VStr (iso e))] in
        (st, emit_to_own_rooms st socket "message_deleted" deletedMessage)
  end.

(** ** The other handlers of events/roomEvents.js *)

Definition join_room_request (e : Env) (st : Server) (socket : string)
  (data : value) : Result :=
  match destructure "roomId" data with
  | Throw error => (st, handleSocketError socket error)
  | Normal data =>
      let roomId := JS.get "roomId" data in
      if negb (JS.truthy roomId) then
        (st, error_packet socket "Room ID is required")
      else
        let '(u, st) := getUserForSocket e socket st in
        match getRoomName roomId with
        | Throw error => (st, handleSocketError socket error)
        | Normal roomName =>
            let st := Sio.join socket roomName st in
            (st,
             (Sio.to_emit st socket roomName "user_joined_room"
                (VObj [("userId", VStr (id u)); ("user", user_card u);
                       ("roomId", roomId); ("timestamp", VStr (iso e))])
              ++ Sio.emit socket "room_joined_success"
                   (VObj [("roomId", roomId);
                          ("message", VStr "Successfully joined room")]))%list)
        end
  end.

Definition leave_room_request (e : Env) (st : Server) (socket : string)
  (data : value) : Result :=
  match destructure "roomId" data with
  | Throw error => (st, handleSocketError socket error)
  | Normal data =>
      let roomId := JS.get "roomId" data in
      if negb (JS.truthy roomId) then
        (st, error_packet socket "Room ID is required")
      else
        let '(u, st) := getUserForSocket e socket st in
        match getRoomName roomId with
        | Throw error => (st, handleSocketError socket error)
        | Normal roomName =>
            let st := Sio.leave socket roomName st in
            (st,
             (Sio.to_emit st socket roomName "user_left_room"
                (VObj [("userId", VStr (id u)); ("user", user_name u);
                       ("roomId", roomId); ("timestamp", VStr (iso e))])
              ++ Sio.emit socket "room_left_success"
                   (VObj [("roomId", roomId);
                          ("message", VStr "Successfully left room")]))%list)
        end
  end.

Definition get_room_info (e : Env) (st : Server) (socket : string) (data : value)
  : Result :=
  match destructure "roomId" data with
  | Throw error => (st, handleSocketError socket error)
  | Normal data =>
      let roomId := JS.get "roomId" data in
      if negb (JS.truthy roomId) then
        (st, error_packet socket "Room ID is required")
      else
        match JS.toString roomId with
        | Throw error => (st, handleSocketError socket error)
        | Normal text =>
            (st,
             Sio.emit socket "room_info"
               (VObj [("room",
                       VObj [("id", roomId);
                             ("name", VStr ("Room " +:+ text));
                             ("description", VStr "Demo room");
                             ("type", VStr "public");
                             ("maxMembers", VNum 100);
                             ("memberCount", VNum 1);
                             ("createdBy",
                              VObj [("id", VStr "demo-user");
                                    ("firstName", VStr "Demo");
                                    ("lastName", VStr "User")]);
                             ("createdAt", VStr (iso e))])]))
        end
  end.

(** [name || `Room ${roomId}`]: the room id is printed only when the
    name is falsy. *)
Definition name_or_default (name roomId : value) : completion value :=
  if JS.truthy name then Normal name
  else
    match JS.toString roomId with
    | Normal text => Normal (VStr ("Room " +:+ text))
    | Throw error => Throw error
    end.

(** The [updatedRoom] object of [update_room]. *)
Definition make_updated_room (e : Env) (u : User)
  (roomId name description maxMembers : value) : completion value :=
  match name_or_default name roomId with
  | Throw error => Throw error
  | Normal shown =>
      Normal
        (VObj [("id", roomId);
               ("name", shown);
               ("description", JS.or description (VStr "Demo room"));
               ("maxMembers", JS.or maxMembers (VNum 100));
               ("updatedBy", user_name u);
               ("timestamp", VStr (iso e))])
  end.

Definition update_room (e : Env) (st : Server) (socket : string) (data : value)
  : Result :=
  match destructure "roomId" data with
  | Throw error => (st, handleSocketError socket error)
  | Normal data =>
      let roomId := JS.get "roomId" data in
      let name := JS.get "name" data in
      let description := JS.get "description" data in
      let maxMembers := JS.get "maxMembers" data in
      if negb (JS.truthy roomId) then
        (st, error_packet socket "Room ID is required")
      else
        let '(u, st) := getUserForSocket e socket st in
        match make_updated_room e u roomId name description maxMembers with
        | Throw error => (st, handleSocketError socket error)
        | Normal updatedRoom =>
            match getRoomName roomId with
            | Throw error => (st, handleSocketError socket error)
            | Normal roomName =>
                (st,
                 (Sio.io_to_emit st roomName "room_updated"
                    (VObj [("room", updatedRoom)])
                  ++ Sio.emit socket "room_updated_success"
                       (VObj [("room", updatedRoom);
                              ("message",
                               VStr "Room updated successfully")]))%list)
            end
        end
  end.

(** ** The other handlers of events/userEvents.js *)

(** One entry of [online_users]. *)
Definition online_user (e : Env) (socketId : string) : value :=
  VObj [("id", VStr socketId);
        ("firstName", VStr ("User" +:+ JS.slice_last 4 socketId));
        ("lastName", VStr "Demo");
        ("avatar", VNull);
        ("lastSeen", VStr (iso e))].

(** [get_online_users] takes no payload and nothing in it throws.  The
    users come in the order of the model's set of connected sockets. *)
Definition get_online_users (e : Env) (st : Server) (socket : string) : Result :=
  let connectedSockets := elements (connected st) in
  let onlineUsers := map (online_user e) connectedSockets in
  (st,
   Sio.emit socket "online_users"
     (VObj [("users", VArr onlineUsers);
            ("count", VNum (Z.of_nat (length onlineUsers)))])).

Definition update_status (e : Env) (st : Server) (socket : string) (data : value)
  : Result :=
  match destructure "status" data with
  | Throw error => (st, handleSocketError socket error)
  | Normal data =>
      let status := JS.get "status" data in
      let '(u, st) := getUserForSocket e socket st in
      (st,
       (Sio.broadcast_emit st socket "user_status_update"
          (VObj [("userId", VStr (id u)); ("status", status);
                 ("timestamp", VStr (iso e))])
        ++ Sio.emit socket "status_updated"
             (VObj [("status", status);
                    ("message", VStr "Status updated successfully")]))%list)
  end.

(** A new connection, as socket.io records it: the socket is added to
    [io.sockets.sockets].  ([index.js] then registers the listeners on
    it.) *)
Definition transport_connect (socket : string) (st : Server) : Server :=
  mkServer ({[socket]} ∪ connected st) (rooms st) (user st) (userId st).

(** ** index.js *)

(** The listeners [index.js] adds to [join_room] and [send_message]
    after the handlers above.  They write to the console; [data.roomId]
    is read, and the fields are printed into the line, outside any
    [try]. *)
Definition log_join_room (data : value) : completion unit :=
  if JS.nullish data then Throw (read_error "roomId" data)
  else
    match JS.toString (JS.get "roomId" data) with
    | Throw error => Throw error
    | Normal _ => Normal tt
    end.

Definition log_send_message (data : value) : completion unit :=
  if JS.nullish data then Throw (read_error "roomId" data)
  else
    match JS.toString (JS.get "roomId" data) with
    | Throw error => Throw error
    | Normal _ =>
        match JS.toString (JS.get "content" data) with
        | Throw error => Throw error
        | Normal _ => Normal tt
        end
    end.

(** The listeners of an event run in the order they were added: the
    handler of [chatEvents], then the one of [index.js]. *)
Definition on_join_room (e : Env) (st : Server) (socket : string) (data : value)
  : Result * completion unit :=
  (join_room e st socket data, log_join_room data).

Definition on_send_message (e : Env) (st : Server) (socket : string)
  (data : value) : Result * completion unit :=
  (send_message e st socket data, log_send_message data).

(** The listeners the three event modules register on a socket, by event
    name, each as a function of the payload.  ([connect], which waits for
    the database, and [get_profile], which sends a [Date], are not
    embedded; [disconnect] is run by the transport.) *)
Definition listeners
  : list (string * (Env → Server → string → value → completion Result)) :=
  [("join_room", fun e st s d => Normal (join_room e st s d));
   ("leave_room", fun e st s d => Normal (leave_room e st s d));
   ("send_message", fun e st s d => Normal (send_message e st s d));
   ("edit_message", fun e st s d => Normal (edit_message e st s d));
   ("delete_message", fun e st s d => Normal (delete_message e st s d));
   ("typing_start", typing_start);
   ("typing_stop", typing_stop);
   ("get_online_users", fun e st s _ => Normal (get_online_users e st s));
   ("update_status", fun e st s d => Normal (update_status e st s d));
   ("update_profile", fun e st s d => Normal (update_profile e st s d));
   ("create_room", fun e st s d => Normal (create_room e st s d));
   ("join_room_request", fun e st s d => Normal (join_room_request e st s d));
   ("leave_room_request", fun e st s d => Normal (leave_room_request e st s d));
   ("get_room_members", fun _ st s d => Normal (get_room_members st s d));
   ("get_room_info", fun e st s d => Normal (get_room_info e st s d));
   ("update_room", fun e st s d => Normal (update_room e st s d))].

(** ** Statements *)

(** [if (v) field = v]: a truthy value replaces the field, anything else
    keeps it. *)
Definition assigned (v old : value) : value := if JS.truthy v then v else old.

(** One [create_room] request. *)
Record CreateOp : Type := mkCreateOp {
  op_env : Env;
  op_socket : string;
  op_data : value;
}.

(** The room ids a list of packets reports in [room_created_success]. *)
Definition returned_room_ids (out : list Delivery) : list value :=
  omap (fun d => if decide (event d = "room_created_success")
                 then Some (JS.get "id" (JS.get "room" (payload d)))
                 else None) out.

(** The room ids returned by a sequence of [create_room] requests, run one
    after the other. *)
Fixpoint create_rooms (ops : list CreateOp) (st : Server) : list value :=
  match ops with
  | [] => []
  | op :: rest =>
      let '(st', out) := create_room (op_env op) st (op_socket op) (op_data op) in
      (returned_room_ids out ++ create_rooms rest st')%list
  end.

(** [c] does not occur in [s]. *)
Fixpoint free_of (c : Ascii.ascii) (s : string) : Prop :=
  match s with
  | EmptyString => True
  | String a rest => a ≠ c ∧ free_of c rest
  end.

(** The message [send_message] builds for a room id that prints as
    [text]. *)
Definition message_of (e : Env) (u : User) (data : value) (text : string)
  : value :=
  VObj [("id", VStr ("msg_" +:+ pretty (now e) +:+ "_" +:+ rnd e));
        ("content", JS.get "content" data);
        ("type", JS.dflt (JS.get "type" data) (VStr "text"));
        ("senderId", VStr (id u));
        ("roomId", JS.get "roomId" data);
        ("replyToId", JS.dflt (JS.get "replyToId" data) VNull);
        ("createdAt", VStr (iso e));
        ("sender", user_card u);
        ("room", VObj [("id", JS.get "roomId" data);
                       ("name", VStr ("Room " +:+ text))])].

(** The adapter's rooms are in order: no room is empty and every member
    of a room is a connected socket. *)
Definition adapter_ok (st : Server) : Prop :=
  ∀ room m, rooms st !! room = Some m → m ≠ ∅ ∧ m ⊆ connected st.

(** The user of a socket carries the socket's id. *)
Definition users_ok (st : Server) : Prop :=
  ∀ sid u, user st !! sid = Some u → id u = sid.

(** The rooms named [room:...] that hold both sockets. *)
Definition shared_rooms (st : Server) (a b : string) : list string :=
  filter (fun roomName =>
            String.prefix "room:" roomName = true
            ∧ b ∈ Sio.members st roomName)
    (socket_rooms st a).

(** The user after the three assignments of [update_profile]. *)
Definition with_profile (data : value) (u : User) : User :=
  mkUser (id u)
    (assigned (JS.get "firstName" data) (firstName u))
    (assigned (JS.get "lastName" data) (lastName u))
    (email u)
    (assigned (JS.get "avatar" data) (avatar u))
    (role u) (isOnline u) (lastSeen u).

(** The handlers that check their payload, each with the fields it
    requires and the message of the [error] it answers when one of them is
    missing or falsy. *)
Definition validated
  : list ((Env → Server → string → value → Result) * list string * string) :=
  [(join_room, ["roomId"], "Room ID is required");
   (leave_room, ["roomId"], "Room ID is required");
   (send_message, ["roomId"; "content"], "Room ID and content are required");
   (edit_message, ["messageId"; "content"],
    "Message ID and content are required");
   (delete_message, ["messageId"], "Message ID is required");
   (create_room, ["name"], "Room name is required");
   (join_room_request, ["roomId"], "Room ID is required");
   (leave_room_request, ["roomId"], "Room ID is required");
   (fun _ => get_room_members, ["roomId"], "Room ID is required");
   (get_room_info, ["roomId"], "Room ID is required");
   (update_room, ["roomId"], "Room ID is required")].

(** The handlers whose body is inside a [try] block and that read their
    payload. *)
Definition guarded : list (Env → Server → string → value → Result) :=
  (validated.*1.*1 ++ [update_status; update_profile])%list.

(** What a handler run for [socket] may do to the state: nothing, give
    the socket its user, put the socket in a room or take it out of one,
    or replace the socket's user by one with the same id. *)
Inductive sender_effect (e : Env) (socket : string) (st : Server)
  : Server → Prop :=
| eff_none : sender_effect e socket st st
| eff_user : sender_effect e socket st (getUserForSocket e socket st).2
| eff_join room :
    sender_effect e socket st
      (Sio.join socket room (getUserForSocket e socket st).2)
| eff_leave room :
    sender_effect e socket st
      (Sio.leave socket room (getUserForSocket e socket st).2)
| eff_profile u :
    id u = id (getUserForSocket e socket st).1 →
    sender_effect e socket st
      (set_user socket u (getUserForSocket e socket st).2).

(** Every packet of [out] goes to [socket] or to a connected socket. *)
Definition addressed (st : Server) (socket : string) (out : list Delivery)
  : Prop :=
  ∀ d, d ∈ out → dest d = socket ∨ dest d ∈ connected st.

(** The server when it starts: nobody connected, no room. *)
Definition initial : Server := mkServer ∅ ∅ ∅ ∅.

(** One turn of the server: a socket with a new id connects, a connected
    socket sends an event one of the listeners returns from, or the
    transport signals a disconnect. *)
Inductive step : Server → Server → Prop :=
| step_connect socket st :
    socket ∉ connected st → user st !! socket = None →
    step st (transport_connect socket st)
| step_event name h e socket data st st' out :
    (name, h) ∈ listeners → socket ∈ connected st →
    h e st socket data = Normal (st', out) →
    step st st'
| step_disconnect e socket st :
    step st (transport_disconnect e st socket).1.

Definition reachable (st : Server) : Prop := rtc step initial st.

(** ** Proof steps *)

(** One case for each element of the list [H] says its subject is in. *)
Ltac list_cases H :=
  repeat (apply elem_of_cons in H as [H|H]);
  [..|by apply elem_of_nil in H].

(** The body of a handler, with a case for each of its tests. *)
Ltac open_handler H :=
  unfold join_room, leave_room, send_message, edit_message, delete_message,
    typing_start, typing_stop, get_online_users, update_status,
    update_profile, create_room, join_room_request, leave_room_request,
    get_room_members, get_room_info, update_room, destructure,
    error_packet, handleSocketError in H;
  repeat match type of H with
    | context [if ?b then _ else _] => destruct b
    end.

(** A case for each outcome of the steps of [H] that may throw. *)
Ltac open_completions H :=
  repeat match type of H with
    | context [match ?c with Normal _ => _ | Throw _ => _ end] => destruct c
    end.

(** ** A scenario *)

(** Three connected sockets, no room yet, and one reading of the clock and
    of the random source. *)
Module Demo.

Definition env : Env :=
  mkEnv 1700000000000 "2023-11-14T22:13:20.000Z" "k3j9x0q2a".

Definition later : Env :=
  mkEnv 1700000000001 "2023-11-14T22:13:20.001Z" "p0z8m1c4v".

Definition fresh : Server := mkServer {["A"; "B"; "C"]} ∅ ∅ ∅.

Definition in_room (roomId : value) : value := VObj [("roomId", roomId)].

(** A and B have joined the rooms r1 and r2; C has joined neither. *)
Definition two_rooms : Server :=
  let st := (join_room env fresh "A" (in_room (VStr "r1"))).1 in
  let st := (join_room env st "B" (in_room (VStr "r1"))).1 in
  let st := (join_room env st "A" (in_room (VStr "r2"))).1 in
  (join_room env st "B" (in_room (VStr "r2"))).1.

End Demo.

(** * Properties *)

(** ** The JavaScript operations on small inputs *)

Example slice_last_long : JS.slice_last 4 "Zq3x_9fKab12" = "ab12".
Proof. reflexivity. Qed.

Example slice_last_short : JS.slice_last 4 "ab" = "ab".
Proof. reflexivity. Qed.

Example getRoomName_string : getRoomName (VStr "r1") = Normal "room:r1".
Proof. reflexivity. Qed.

Example getRoomName_number : getRoomName (VNum 42) = Normal "room:42".
Proof. reflexivity. Qed.

Example getRoomName_array :
  getRoomName (VArr [VNum 1; VNull; VArr [VStr "a"; VObj []]])
  = Normal "room:1,,a,[object Object]".
Proof. reflexivity. Qed.

(** An object with a [toString] of its own, as a payload can carry, has
    no room name. *)
Example getRoomName_throws :
  getRoomName (VObj [("toString", VNum 1)]) = Throw JS.not_primitive.
Proof. reflexivity. Qed.

(** Numbers print as JavaScript prints them: in full up to 21 digits,
    with the shortest digits that give the same double, and with an
    exponent from 1e21 on. *)
Example number_toString_small : JS.number_toString 42 = "42".
Proof. reflexivity. Qed.

Example number_toString_negative : JS.number_toString (-7) = "-7".
Proof. reflexivity. Qed.

Example number_toString_rounded :
  JS.number_toString 9007199254740993 = "9007199254740992".
Proof. vm_compute. reflexivity. Qed.

Example number_toString_2_64 :
  JS.number_toString (2 ^ 64) = "18446744073709552000".
Proof. vm_compute. reflexivity. Qed.

Example number_toString_1e21 : JS.number_toString (10 ^ 21) = "1e+21".
Proof. vm_compute. reflexivity. Qed.

Example number_toString_exponent :
  JS.number_toString 123456789012345678901234567890
  = "1.2345678901234568e+29".
Proof. vm_compute. reflexivity. Qed.

Example number_toString_infinity : JS.number_toString (10 ^ 400) = "Infinity".
Proof. vm_compute. reflexivity. Qed.

Example truthy_empty_string : JS.truthy (VStr "") = false.
Proof. reflexivity. Qed.

Example createDemoUser_firstName :
  firstName (createDemoUser Demo.env "Zq3x_9fKab12") = VStr "Userab12".
Proof. reflexivity. Qed.

(** ** Packets and recipients *)

Section Received.

Implicit Types (out : list Delivery) (to : gset string).

Lemma received_app sid out1 out2 :
  received sid (out1 ++ out2) = (received sid out1 ++ received sid out2)%list.
Proof. unfold received. apply omap_app. Qed.

Lemma received_packets (l : list string) ev p sid :
  NoDup l →
  received sid ((fun r => mkDelivery r ev p) <$> l)
  = if decide (sid ∈ l) then [(ev, p)] else [].
Proof.
  induction 1 as [|r l Hr Hl IH]; [done|].
  cbn [fmap list_fmap received omap list_omap dest event payload].
  fold (received sid ((fun r => mkDelivery r ev p) <$> l)). rewrite IH.
  destruct (decide (r = sid)) as [->|Hne];
    destruct (decide (sid ∈ l));
    destruct (decide (sid ∈ _ :: l)) as [Hc|Hc];
    try done; try (rewrite elem_of_cons in Hc); naive_solver.
Qed.

Lemma received_send to ev p sid :
  received sid (Sio.send to ev p) = if decide (sid ∈ to) then [(ev, p)] else [].
Proof.
  unfold Sio.send. rewrite received_packets by apply NoDup_elements.
  destruct (decide (sid ∈ to)) as [Hin|Hin].
  - rewrite decide_True; [done|by apply elem_of_elements].
  - rewrite decide_False; [done|by rewrite elem_of_elements].
Qed.

Lemma received_emit sid socket ev p :
  received sid (Sio.emit socket ev p)
  = if decide (socket = sid) then [(ev, p)] else [].
Proof. unfold Sio.emit, received; simpl. by destruct (decide _). Qed.

End Received.

(** ** [getUserForSocket] touches the socket's user only *)

Lemma getUserForSocket_connected e socket st :
  connected (getUserForSocket e socket st).2 = connected st.
Proof. unfold getUserForSocket. by destruct (user st !! socket). Qed.

Lemma getUserForSocket_rooms e socket st :
  rooms (getUserForSocket e socket st).2 = rooms st.
Proof. unfold getUserForSocket. by destruct (user st !! socket). Qed.

Lemma getUserForSocket_members e socket st room :
  Sio.members (getUserForSocket e socket st).2 room = Sio.members st room.
Proof. unfold Sio.members. by rewrite getUserForSocket_rooms. Qed.

Lemma getUserForSocket_stored e socket st :
  user (getUserForSocket e socket st).2 !! socket
  = Some (getUserForSocket e socket st).1.
Proof.
  unfold getUserForSocket.
  destruct (user st !! socket) eqn:Hu; simpl; [done|].
  apply lookup_insert_eq.
Qed.

Lemma getUserForSocket_again e e' socket st :
  getUserForSocket e' socket (getUserForSocket e socket st).2
  = getUserForSocket e socket st.
Proof.
  pose proof (getUserForSocket_stored e socket st) as Hs.
  unfold getUserForSocket at 1. rewrite Hs.
  by destruct (getUserForSocket e socket st).
Qed.

(** ** Membership after [join] *)

Lemma members_join sid room st room' :
  Sio.members (Sio.join sid room st) room'
  = if decide (room = room') then {[sid]} ∪ Sio.members st room
    else Sio.members st room'.
Proof.
  unfold Sio.members, Sio.join; simpl.
  rewrite lookup_insert. destruct (decide (room = room')); done.
Qed.

(** ** [join_room] *)

Lemma getRoomName_text roomId roomName :
  getRoomName roomId = Normal roomName →
  ∃ text, JS.toString roomId = Normal text ∧ roomName = "room:" +:+ text.
Proof.
  unfold getRoomName. destruct (JS.toString roomId) as [text|]; [|done].
  intros [= <-]. by exists text.
Qed.

Lemma getRoomName_of_text roomId text :
  JS.toString roomId = Normal text →
  getRoomName roomId = Normal ("room:" +:+ text).
Proof. unfold getRoomName. by intros ->. Qed.

(** What [join_room] does for a room id that is truthy and has a
    name. *)
Lemma join_room_run e st socket data roomName :
  JS.nullish data = false →
  JS.truthy (JS.get "roomId" data) = true →
  getRoomName (JS.get "roomId" data) = Normal roomName →
  join_room e st socket data
  = (Sio.join socket roomName (getUserForSocket e socket st).2,
     (Sio.to_emit (Sio.join socket roomName (getUserForSocket e socket st).2)
        socket roomName "user_joined"
        (VObj [("userId", VStr (id (getUserForSocket e socket st).1));
               ("user", user_card (getUserForSocket e socket st).1);
               ("timestamp", VStr (iso e))])
      ++ Sio.emit socket "room_joined"
           (VObj [("roomId", JS.get "roomId" data);
                  ("message", VStr "Successfully joined room")]))%list).
Proof.
  intros Hd Ht Hn. unfold join_room, destructure. rewrite Hd, Ht. simpl.
  destruct (getUserForSocket e socket st). by rewrite Hn.
Qed.

(** The one exception [JS.toString] throws. *)
Lemma toString_throws v error :
  JS.toString v = Throw error → error = JS.not_primitive.
Proof.
  revert v error. fix IH 1.
  intros [ | | [|] | n | s | elts | props] error; simpl; try discriminate.
  - assert (Hall : ∀ l e,
               JS.join_all
                 (map (fun x => if JS.nullish x then Normal ""
                                else JS.toString x) l) = Throw e →
               e = JS.not_primitive).
    { fix IHl 1. intros [|x l] e; simpl; [discriminate|].
      destruct (JS.nullish x).
      - destruct (JS.join_all _) eqn:Hl; [discriminate|].
        intros [= <-]. by apply (IHl l).
      - destruct (JS.toString x) eqn:Hx.
        + destruct (JS.join_all _) eqn:Hl; [discriminate|].
          intros [= <-]. by apply (IHl l).
        + intros [= <-]. by apply (IH x). }
    destruct (JS.join_all _) eqn:Hl; [discriminate|].
    intros [= <-]. by apply (Hall elts).
  - destruct (JS.has_key _ _); [|discriminate]. by intros [= <-].
Qed.

Lemma getRoomName_throws_not_primitive roomId error :
  getRoomName roomId = Throw error → error = JS.not_primitive.
Proof.
  unfold getRoomName. destruct (JS.toString roomId) eqn:Ht; [discriminate|].
  intros [= <-]. by apply (toString_throws roomId).
Qed.

(** What it does for a room id that is truthy and has none. *)
Lemma join_room_fails e st socket data error :
  JS.nullish data = false →
  JS.truthy (JS.get "roomId" data) = true →
  getRoomName (JS.get "roomId" data) = Throw error →
  join_room e st socket data
  = ((getUserForSocket e socket st).2, handleSocketError socket error).
Proof.
  intros Hd Ht Hn. unfold join_room, destructure. rewrite Hd, Ht. simpl.
  destruct (getUserForSocket e socket st). by rewrite Hn.
Qed.

Lemma join_room_state e st socket data roomName :
  JS.nullish data = false →
  JS.truthy (JS.get "roomId" data) = true →
  getRoomName (JS.get "roomId" data) = Normal roomName →
  (join_room e st socket data).1
  = Sio.join socket roomName (getUserForSocket e socket st).2.
Proof. intros Hd Ht Hn. by rewrite (join_room_run _ _ _ _ roomName). Qed.

Lemma join_room_members e st socket data roomName room :
  JS.nullish data = false →
  JS.truthy (JS.get "roomId" data) = true →
  getRoomName (JS.get "roomId" data) = Normal roomName →
  Sio.members (join_room e st socket data).1 room
  = if decide (roomName = room)
    then {[socket]} ∪ Sio.members st room
    else Sio.members st room.
Proof.
  intros Hd Ht Hn.
  rewrite (join_room_state _ _ _ _ roomName), members_join by done.
  destruct (decide _) as [->|]; by rewrite getUserForSocket_members.
Qed.

Lemma join_room_connected e st socket data :
  connected (join_room e st socket data).1 = connected st.
Proof.
  unfold join_room, destructure.
  destruct (JS.nullish data); [done|].
  destruct (JS.truthy _); [|done]; simpl.
  pose proof (getUserForSocket_connected e socket st).
  destruct (getUserForSocket e socket st).
  by destruct (getRoomName _).
Qed.

(** ** [send_message] *)

(** What [send_message] does when it passes the validation and the room
    id prints as [text]. *)
Lemma send_message_run e st socket data text :
  JS.nullish data = false →
  JS.truthy (JS.get "roomId" data) = true →
  JS.truthy (JS.get "content" data) = true →
  JS.toString (JS.get "roomId" data) = Normal text →
  send_message e st socket data
  = let message := message_of e (getUserForSocket e socket st).1 data text in
    ((getUserForSocket e socket st).2,
     (Sio.io_to_emit (getUserForSocket e socket st).2 ("room:" +:+ text)
        "message_sent" (VObj [("message", message)])
      ++ Sio.io_to_emit (getUserForSocket e socket st).2 ("room:" +:+ text)
           "new_message" message)%list).
Proof.
  intros Hd Hr Hc Hn. unfold send_message, destructure, make_message, getRoomName.
  rewrite Hd, Hr, Hc. simpl.
  destruct (getUserForSocket e socket st). by rewrite Hn.
Qed.

(** What each socket receives from it: the two packets if it is a
    connected member of the room, nothing otherwise. *)
Lemma send_message_received e st socket data text sid :
  JS.nullish data = false →
  JS.truthy (JS.get "roomId" data) = true →
  JS.truthy (JS.get "content" data) = true →
  JS.toString (JS.get "roomId" data) = Normal text →
  let message := message_of e (getUserForSocket e socket st).1 data text in
  received sid (send_message e st socket data).2
  = if decide (sid ∈ Sio.members st ("room:" +:+ text) ∩ connected st)
    then [("message_sent", VObj [("message", message)]);
          ("new_message", message)]
    else [].
Proof.
  intros Hd Hr Hc Hn. rewrite (send_message_run _ _ _ _ text) by done.
  cbv zeta. cbn [snd]. rewrite received_app. unfold Sio.io_to_emit.
  rewrite !received_send, getUserForSocket_connected, getUserForSocket_members.
  by destruct (decide _).
Qed.

(** C1. When A and B have both joined room R with [join_room] and A then
    sends [send_message] with roomId R and content "x", A and B each
    receive a [message_sent] packet whose message has content "x" (and the
    [new_message] packet with the same message), and a socket C that never
    joined R receives nothing from the send: C starts in no room and joins
    some other room R', one that does not print as R does.  (A room id
    names a room when it is truthy and prints as a string.) *)
Theorem send_message_reaches_the_room e0 e1 e2 e3 st A B C R R' text text' :
  JS.truthy R = true → JS.toString R = Normal text →
  JS.truthy R' = true → JS.toString R' = Normal text' →
  text' ≠ text →
  A ∈ connected st → B ∈ connected st →
  (∀ room, C ∉ Sio.members st room) → C ≠ A → C ≠ B →
  let st0 := (join_room e0 st C (VObj [("roomId", R')])).1 in
  let st1 := (join_room e1 st0 A (VObj [("roomId", R)])).1 in
  let st2 := (join_room e2 st1 B (VObj [("roomId", R)])).1 in
  let out :=
    (send_message e3 st2 A (VObj [("roomId", R); ("content", VStr "x")])).2 in
  ∃ message,
    JS.get "content" message = VStr "x"
    ∧ received A out = [("message_sent", VObj [("message", message)]);
                        ("new_message", message)]
    ∧ received B out = [("message_sent", VObj [("message", message)]);
                        ("new_message", message)]
    ∧ received C out = [].
Proof.
  intros HR Ht HR' Ht' Hne HA HB HC HCA HCB st0 st1 st2 out.
  pose proof (getRoomName_of_text R text Ht) as Hn.
  pose proof (getRoomName_of_text R' text' Ht') as Hn'.
  assert (Hmem : Sio.members st2 ("room:" +:+ text)
                 = {[B]} ∪ ({[A]} ∪ Sio.members st ("room:" +:+ text))).
  { unfold st2, st1, st0.
    rewrite !(join_room_members _ _ _ _ ("room:" +:+ text)) by done.
    rewrite (join_room_members _ _ _ _ ("room:" +:+ text')) by done.
    rewrite !(decide_True (P := "room:" +:+ text = "room:" +:+ text)) by done.
    rewrite decide_False; [done|].
    intros Heq. apply Hne. by apply (inj (String.app "room:")) in Heq. }
  assert (Hconn : connected st2 = connected st).
  { unfold st2, st1, st0. by rewrite !join_room_connected. }
  exists (message_of e3 (getUserForSocket e3 A st2).1
            (VObj [("roomId", R); ("content", VStr "x")]) text).
  split; [|split; [|split]]; unfold out.
  2,3,4: rewrite (send_message_received _ _ _ _ text) by done;
    rewrite Hmem, Hconn.
  - reflexivity.
  - rewrite decide_True; [reflexivity|set_solver].
  - rewrite decide_True; [reflexivity|set_solver].
  - rewrite decide_False; [reflexivity|].
    specialize (HC ("room:" +:+ text)). set_solver.
Qed.

Lemma send_message_reaches_the_room_witness :
  let st0 :=
    (join_room Demo.env Demo.fresh "C" (VObj [("roomId", VStr "r2")])).1 in
  let st1 := (join_room Demo.env st0 "A" (VObj [("roomId", VStr "r1")])).1 in
  let st2 := (join_room Demo.env st1 "B" (VObj [("roomId", VStr "r1")])).1 in
  let out :=
    (send_message Demo.later st2 "A"
       (VObj [("roomId", VStr "r1"); ("content", VStr "x")])).2 in
  ∃ message,
    JS.get "content" message = VStr "x"
    ∧ received "A" out
      = [("message_sent", VObj [("message", message)]); ("new_message", message)]
    ∧ received "B" out
      = [("message_sent", VObj [("message", message)]); ("new_message", message)]
    ∧ received "C" out = [].
Proof.
  apply (send_message_reaches_the_room Demo.env Demo.env Demo.env Demo.later
           Demo.fresh "A" "B" "C" (VStr "r1") (VStr "r2") "r1" "r2").
  - reflexivity.
  - reflexivity.
  - reflexivity.
  - reflexivity.
  - discriminate.
  - vm_compute. reflexivity.
  - vm_compute. reflexivity.
  - intros room. vm_compute. discriminate.
  - discriminate.
  - discriminate.
Defined.

(** ** Typing indicators *)

Lemma typing_start_returns e st socket data roomName :
  JS.nullish data = false →
  JS.truthy (JS.get "roomId" data) = true →
  getRoomName (JS.get "roomId" data) = Normal roomName →
  typing_start e st socket data
  = Normal ((getUserForSocket e socket st).2,
            Sio.to_emit (getUserForSocket e socket st).2 socket
              roomName "user_typing"
              (VObj [("userId", VStr (id (getUserForSocket e socket st).1));
                     ("user", user_name (getUserForSocket e socket st).1);
                     ("timestamp", VStr (iso e))])).
Proof.
  intros Hd Ht Hn. unfold typing_start, destructure. rewrite Hd, Ht.
  destruct (getUserForSocket e socket st). by rewrite Hn.
Qed.

Lemma typing_stop_returns e st socket data roomName :
  JS.nullish data = false →
  JS.truthy (JS.get "roomId" data) = true →
  getRoomName (JS.get "roomId" data) = Normal roomName →
  typing_stop e st socket data
  = Normal ((getUserForSocket e socket st).2,
            Sio.to_emit (getUserForSocket e socket st).2 socket
              roomName "user_stopped_typing"
              (VObj [("userId", VStr (id (getUserForSocket e socket st).1));
                     ("timestamp", VStr (iso e))])).
Proof.
  intros Hd Ht Hn. unfold typing_stop, destructure. rewrite Hd, Ht.
  destruct (getUserForSocket e socket st). by rewrite Hn.
Qed.

Lemma received_to_emit st socket room ev p sid :
  received sid (Sio.to_emit st socket room ev p)
  = if decide (sid ∈ (Sio.members st room ∩ connected st) ∖ {[socket]})
    then [(ev, p)] else [].
Proof. apply received_send. Qed.

(** C2. What the code does for [typing_start] followed by [typing_stop]
    from A in a room B is in, whatever room id names the room: B receives
    one [user_typing] packet and then one [user_stopped_typing] packet,
    neither of which has an [isTyping] field, and A receives nothing.
    The claim asks for two [user_typing] packets with [isTyping] true and
    then false. *)
Theorem typing_start_stop_packets e1 e2 st A B R roomName :
  JS.truthy R = true → getRoomName R = Normal roomName →
  B ≠ A → B ∈ connected st → B ∈ Sio.members st roomName →
  ∃ st1 out1 st2 out2 p1 p2,
    typing_start e1 st A (VObj [("roomId", R)]) = Normal (st1, out1)
    ∧ typing_stop e2 st1 A (VObj [("roomId", R)]) = Normal (st2, out2)
    ∧ received B (out1 ++ out2)
      = [("user_typing", p1); ("user_stopped_typing", p2)]
    ∧ JS.get "isTyping" p1 = VUndefined
    ∧ JS.get "isTyping" p2 = VUndefined
    ∧ received A (out1 ++ out2) = [].
Proof.
  intros HR Hn HBA HB HBm.
  do 6 eexists.
  split; [by apply (typing_start_returns _ _ _ _ roomName)|].
  split; [by apply (typing_stop_returns _ _ _ _ roomName)|].
  rewrite !received_app, !received_to_emit. simpl JS.get.
  rewrite !getUserForSocket_members, !getUserForSocket_connected.
  split; [|split; [|split]].
  - rewrite !decide_True by set_solver. reflexivity.
  - reflexivity.
  - reflexivity.
  - rewrite !decide_False by set_solver. reflexivity.
Qed.

Lemma typing_start_stop_packets_witness :
  ∃ st1 out1 st2 out2 p1 p2,
    typing_start Demo.env Demo.two_rooms "A" (VObj [("roomId", VStr "r1")])
    = Normal (st1, out1)
    ∧ typing_stop Demo.later st1 "A" (VObj [("roomId", VStr "r1")])
      = Normal (st2, out2)
    ∧ received "B" (out1 ++ out2)
      = [("user_typing", p1); ("user_stopped_typing", p2)]
    ∧ JS.get "isTyping" p1 = VUndefined
    ∧ JS.get "isTyping" p2 = VUndefined
    ∧ received "A" (out1 ++ out2) = [].
Proof.
  apply (typing_start_stop_packets Demo.env Demo.later Demo.two_rooms
           "A" "B" (VStr "r1") "room:r1").
  - reflexivity.
  - reflexivity.
  - discriminate.
  - vm_compute. reflexivity.
  - vm_compute. reflexivity.
Defined.

(** C6. [typing_start] and [typing_stop] called with no payload throw
    out of the handler: the [TypeError] of the destructuring is not
    caught and no [error] packet is sent; called with a payload that
    lacks [roomId] they send nothing at all.  The handlers with a [try]
    block, such as [join_room], answer a missing payload with an [error]
    packet. *)
Theorem typing_without_payload_throws e st socket :
  typing_start e st socket VUndefined
  = Throw (destructure_error "roomId" VUndefined)
  ∧ typing_stop e st socket VUndefined
    = Throw (destructure_error "roomId" VUndefined)
  ∧ typing_start e st socket (VObj []) = Normal (st, [])
  ∧ typing_stop e st socket (VObj []) = Normal (st, [])
  ∧ join_room e st socket VUndefined
    = (st, [mkDelivery socket "error"
              (VObj [("message",
                      VStr "Cannot destructure property 'roomId' of 'data' as it is undefined.");
                     ("code", VStr "UNKNOWN_ERROR")])]).
Proof. repeat split. Qed.

(** C7. [send_message] with the payload [{roomId: null, content: "x"}]:
    the sender receives [error] with the message "Room ID and content are
    required", no other packet is sent to anyone, and the state is
    unchanged. *)
Theorem send_message_null_room e st socket :
  send_message e st socket (VObj [("roomId", VNull); ("content", VStr "x")])
  = (st, [mkDelivery socket "error"
            (VObj [("message", VStr "Room ID and content are required")])]).
Proof. reflexivity. Qed.

(** ** The demo user *)

Lemma substring_whole (s : string) n :
  (String.length s ≤ n)%nat → String.substring 0 n s = s.
Proof.
  revert n. induction s as [|c s IH]; intros [|n] Hn; simpl in *;
    try done; try lia.
  f_equal. apply IH. lia.
Qed.

Lemma substring_is_suffix (s : string) k n :
  (k ≤ String.length s)%nat → (String.length s - k ≤ n)%nat →
  ∃ pre, s = pre +:+ String.substring k n s ∧ String.length pre = k.
Proof.
  revert k. induction s as [|c s IH]; intros k Hk Hn; simpl in *.
  - exists "". assert (k = 0) as -> by lia. by destruct n.
  - destruct k as [|k].
    + exists "". split; [|done]. simpl.
      destruct n as [|n]; [lia|].
      change (String c s = String c (String.substring 0 n s)). f_equal.
      symmetry. apply substring_whole. lia.
    + destruct (IH k) as [pre [Hs Hl]]; [lia..|].
      exists (String c pre). split; [|simpl; by f_equal].
      change (String c s = String c (pre +:+ String.substring k n s)).
      by f_equal.
Qed.

(** [s.slice(-n)] is the end of [s], [n] characters long when [s] has
    that many. *)
Lemma slice_last_suffix n (s : string) :
  ∃ pre, s = pre +:+ JS.slice_last n s
         ∧ String.length pre = String.length s - n.
Proof. unfold JS.slice_last. apply substring_is_suffix; lia. Qed.

(** C9. On a socket that has no user yet, [getUserForSocket] makes one
    from the socket id: its id is the socket id, its first name "User"
    followed by the last four characters of the socket id, its last name
    "Demo"; on a socket that has one it returns it.  In both cases a
    later call on the same socket, whatever the clock, returns the same
    user and changes nothing. *)
Theorem getUserForSocket_idempotent e e' st socket :
  let '(u, st1) := getUserForSocket e socket st in
  match user st !! socket with
  | None =>
      id u = socket
      ∧ (∃ pre, socket = pre +:+ JS.slice_last 4 socket
                ∧ String.length pre = String.length socket - 4
                ∧ firstName u = VStr ("User" +:+ JS.slice_last 4 socket))
      ∧ lastName u = VStr "Demo"
  | Some u0 => u = u0 ∧ st1 = st
  end
  ∧ getUserForSocket e' socket st1 = (u, st1).
Proof.
  pose proof (getUserForSocket_again e e' socket st) as Hagain.
  unfold getUserForSocket in *.
  destruct (user st !! socket) as [u0|] eqn:Hu.
  - split; [done|]. by rewrite Hu.
  - split; [|exact Hagain].
    split; [done|]. split; [|done].
    destruct (slice_last_suffix 4 socket) as [pre [Hs Hl]].
    by exists pre.
Qed.

(** ** [update_profile] *)

(** C10. [update_profile] overwrites each of firstName, lastName and
    avatar whose payload value is truthy and keeps the stored value of
    each one that is absent or falsy; the other fields of the user, the
    users of the other sockets, the rooms and the connected sockets are
    unchanged. *)
Theorem update_profile_frame e st socket data :
  JS.nullish data = false →
  let u := (getUserForSocket e socket st).1 in
  let st' := (update_profile e st socket data).1 in
  ∃ u',
    user st' !! socket = Some u'
    ∧ firstName u' = assigned (JS.get "firstName" data) (firstName u)
    ∧ lastName u' = assigned (JS.get "lastName" data) (lastName u)
    ∧ avatar u' = assigned (JS.get "avatar" data) (avatar u)
    ∧ id u' = id u ∧ email u' = email u ∧ role u' = role u
    ∧ isOnline u' = isOnline u ∧ lastSeen u' = lastSeen u
    ∧ (∀ other, other ≠ socket → user st' !! other = user st !! other)
    ∧ connected st' = connected st
    ∧ rooms st' = rooms st.
Proof.
  intros Hd u st'. unfold st', u, update_profile, destructure, assigned.
  rewrite Hd. clear u st'.
  assert (Hother : ∀ other, other ≠ socket →
            user (getUserForSocket e socket st).2 !! other = user st !! other).
  { intros other Hne. unfold getUserForSocket.
    destruct (user st !! socket); simpl; [done|].
    by rewrite lookup_insert_ne. }
  pose proof (getUserForSocket_connected e socket st) as Hconn.
  pose proof (getUserForSocket_rooms e socket st) as Hrooms.
  destruct (getUserForSocket e socket st) as [u st1]. simpl in *.
  eexists. split; [apply lookup_insert_eq|].
  repeat split;
    try (destruct (JS.truthy (JS.get "firstName" data)),
           (JS.truthy (JS.get "lastName" data)),
           (JS.truthy (JS.get "avatar" data)); reflexivity);
    try done.
  intros other Hne. rewrite lookup_insert_ne by done. by apply Hother.
Qed.

Lemma update_profile_frame_witness :
  ∃ u',
    user (update_profile Demo.later Demo.two_rooms "A"
            (VObj [("firstName", VStr "Ada"); ("lastName", VStr "")])).1 !! "A"
    = Some u'
    ∧ firstName u' = VStr "Ada"
    ∧ lastName u' = VStr "Demo"
    ∧ avatar u' = VNull
    ∧ id u' = "A" ∧ email u' = "userA@demo.com" ∧ role u' = "user"
    ∧ isOnline u' = true ∧ lastSeen u' = 1700000000000%N
    ∧ (∀ other, other ≠ "A" →
         user (update_profile Demo.later Demo.two_rooms "A"
                 (VObj [("firstName", VStr "Ada"); ("lastName", VStr "")])).1
           !! other
         = user Demo.two_rooms !! other)
    ∧ connected
        (update_profile Demo.later Demo.two_rooms "A"
           (VObj [("firstName", VStr "Ada"); ("lastName", VStr "")])).1
      = connected Demo.two_rooms
    ∧ rooms
        (update_profile Demo.later Demo.two_rooms "A"
           (VObj [("firstName", VStr "Ada"); ("lastName", VStr "")])).1
      = rooms Demo.two_rooms.
Proof.
  apply (update_profile_frame Demo.later Demo.two_rooms "A"
           (VObj [("firstName", VStr "Ada"); ("lastName", VStr "")])).
  reflexivity.
Defined.

(** ** Joining a room nobody created *)

Lemma join_idem sid room st :
  Sio.join sid room (Sio.join sid room st) = Sio.join sid room st.
Proof.
  unfold Sio.join at 1 3, Sio.set_rooms. rewrite members_join, decide_True by done.
  simpl. rewrite insert_insert_eq.
  f_equal. f_equal. set_solver.
Qed.

Lemma getUserForSocket_join e socket sid room st :
  getUserForSocket e socket (Sio.join sid room st)
  = ((getUserForSocket e socket st).1,
     Sio.join sid room (getUserForSocket e socket st).2).
Proof. unfold getUserForSocket; simpl. by destruct (user st !! socket). Qed.

(** C5, as the code has it.  [join_room] keeps no list of rooms: for
    every truthy room id that prints as a string, known or not, it puts
    the socket in the room and answers [room_joined]; joining again
    leaves the state as it is.  A falsy room id is refused, with the
    [error] "Room ID is required" and no change of state; a room id that
    does not print (an object with a [toString] of its own) is answered
    with the [error] of the [TypeError], code "UNKNOWN_ERROR", and no
    room is joined. *)
Theorem join_room_any_room e e' st socket roomId :
  let '(st1, out1) := join_room e st socket (VObj [("roomId", roomId)]) in
  if JS.truthy roomId then
    match getRoomName roomId with
    | Normal roomName =>
        Sio.members st1 roomName = {[socket]} ∪ Sio.members st roomName
        ∧ received socket out1
          = [("room_joined",
              VObj [("roomId", roomId);
                    ("message", VStr "Successfully joined room")])]
        ∧ (join_room e' st1 socket (VObj [("roomId", roomId)])).1 = st1
    | Throw error =>
        st1 = (getUserForSocket e socket st).2
        ∧ rooms st1 = rooms st
        ∧ out1 = handleSocketError socket error
        ∧ out1 = [mkDelivery socket "error"
                    (VObj [("message",
                            VStr "Cannot convert object to primitive value");
                           ("code", VStr "UNKNOWN_ERROR")])]
    end
  else
    st1 = st
    ∧ out1 = [mkDelivery socket "error"
                (VObj [("message", VStr "Room ID is required")])].
Proof.
  destruct (join_room e st socket (VObj [("roomId", roomId)]))
    as [st1 out1] eqn:Hj.
  destruct (JS.truthy roomId) eqn:Ht.
  - destruct (getRoomName roomId) as [roomName|error] eqn:Hn.
    + assert (Hst : st1
                    = (join_room e st socket (VObj [("roomId", roomId)])).1)
        by by rewrite Hj.
      assert (Hout : out1
                     = (join_room e st socket (VObj [("roomId", roomId)])).2)
        by by rewrite Hj.
      split; [|split].
      * rewrite Hst, (join_room_members _ _ _ _ roomName) by done.
        by rewrite decide_True.
      * rewrite Hout, (join_room_run _ _ _ _ roomName) by done. cbn [snd].
        rewrite received_app, received_to_emit, received_emit.
        rewrite decide_False by set_solver. by rewrite decide_True.
      * rewrite (join_room_state _ _ _ _ roomName) by done.
        rewrite Hst, (join_room_state _ _ _ _ roomName) by done.
        rewrite getUserForSocket_join. simpl.
        rewrite getUserForSocket_again. apply join_idem.
    + rewrite (join_room_fails _ _ _ _ error) in Hj by done.
      injection Hj as <- <-.
      split; [done|]. split; [apply getUserForSocket_rooms|]. split; [done|].
      by rewrite (getRoomName_throws_not_primitive _ _ Hn).
  - unfold join_room, destructure in Hj. simpl in Hj. rewrite Ht in Hj.
    simpl in Hj. by injection Hj as <- <-.
Qed.

(** An object with a [toString] of its own is a room id [join_room]
    answers with an [error] and joins nothing for. *)
Example join_room_unprintable :
  join_room Demo.env Demo.two_rooms "A"
    (VObj [("roomId", VObj [("toString", VNum 1)])])
  = (Demo.two_rooms,
     [mkDelivery "A" "error"
        (VObj [("message", VStr "Cannot convert object to primitive value");
               ("code", VStr "UNKNOWN_ERROR")])]).
Proof. vm_compute. reflexivity. Qed.

(** C5 does not hold as stated: no room exists in [Demo.fresh], and yet
    [join_room] for the room id "ghost" sends no [error] packet and puts
    the socket in the room. *)
Lemma join_room_unknown_room_joins :
  rooms Demo.fresh = ∅
  ∧ (∀ d, d ∈ (join_room Demo.env Demo.fresh "A"
                 (VObj [("roomId", VStr "ghost")])).2 → event d ≠ "error")
  ∧ "A" ∈ Sio.members
            (join_room Demo.env Demo.fresh "A"
               (VObj [("roomId", VStr "ghost")])).1
            "room:ghost".
Proof.
  split; [reflexivity|]. split.
  - intros d Hd. vm_compute in Hd.
    apply list_elem_of_singleton in Hd as ->. discriminate.
  - vm_compute. reflexivity.
Qed.

(** ** Creating a room *)

Lemma create_room_run e st socket data :
  JS.nullish data = false →
  JS.truthy (JS.get "name" data) = true →
  ∃ room_created,
    create_room e st socket data
    = (Sio.join socket ("room:" +:+ room_id e)
         (getUserForSocket e socket st).2,
       (Sio.io_emit
          (Sio.join socket ("room:" +:+ room_id e)
             (getUserForSocket e socket st).2)
          "room_created" room_created
        ++ Sio.emit socket "room_created_success"
             (VObj [("room",
                     VObj [("id", VStr (room_id e));
                           ("name", JS.get "name" data);
                           ("description", JS.get "description" data);
                           ("type", JS.dflt (JS.get "type" data) (VStr "public"));
                           ("createdById",
                            VStr (id (getUserForSocket e socket st).1));
                           ("maxMembers",
                            JS.dflt (JS.get "maxMembers" data) (VNum 100));
                           ("createdAt", VStr (iso e))]);
                    ("message", VStr "Room created successfully")]))%list).
Proof.
  intros Hd Hn. unfold create_room, destructure. rewrite Hd, Hn. simpl.
  destruct (getUserForSocket e socket st) as [u st0]. simpl.
  eexists. reflexivity.
Qed.

(** C4, as the code has it.  After [create_room] the creator has joined
    the channel of the new room, the one [getRoomName] gives for the new
    id, and is its only member when nobody was in that channel before;
    [get_room_members] for the new room id answers the creator alone,
    with an empty member list and count 0. *)
Theorem create_room_then_members e st socket data :
  JS.nullish data = false →
  JS.truthy (JS.get "name" data) = true →
  rooms st !! ("room:" +:+ room_id e) = None →
  let '(st1, out1) := create_room e st socket data in
  (∃ p, (("room_created_success", p) ∈ received socket out1)
        ∧ JS.get "id" (JS.get "room" p) = VStr (room_id e))
  ∧ getRoomName (VStr (room_id e)) = Normal ("room:" +:+ room_id e)
  ∧ Sio.members st1 ("room:" +:+ room_id e) = {[socket]}
  ∧ get_room_members st1 socket (VObj [("roomId", VStr (room_id e))])
    = (st1, [mkDelivery socket "room_members"
               (VObj [("roomId", VStr (room_id e)); ("members", VArr []);
                      ("count", VNum 0)])]).
Proof.
  intros Hd Hn Hfresh.
  destruct (create_room_run e st socket data Hd Hn) as [rc ->].
  split; [|split; [|split]].
  - eexists. split.
    + rewrite received_app, received_emit, decide_True by done.
      apply elem_of_app. right. apply list_elem_of_singleton. reflexivity.
    + reflexivity.
  - reflexivity.
  - rewrite members_join, decide_True by done.
    rewrite getUserForSocket_members. unfold Sio.members. rewrite Hfresh.
    simpl. set_solver.
  - reflexivity.
Qed.

Lemma create_room_then_members_witness :
  let '(st1, out1) :=
    create_room Demo.env Demo.fresh "A" (VObj [("name", VStr "Lounge")]) in
  (∃ p, (("room_created_success", p) ∈ received "A" out1)
        ∧ JS.get "id" (JS.get "room" p) = VStr (room_id Demo.env))
  ∧ getRoomName (VStr (room_id Demo.env))
    = Normal ("room:" +:+ room_id Demo.env)
  ∧ Sio.members st1 ("room:" +:+ room_id Demo.env) = {["A"]}
  ∧ get_room_members st1 "A" (VObj [("roomId", VStr (room_id Demo.env))])
    = (st1, [mkDelivery "A" "room_members"
               (VObj [("roomId", VStr (room_id Demo.env)); ("members", VArr []);
                      ("count", VNum 0)])]).
Proof.
  apply (create_room_then_members Demo.env Demo.fresh "A"
           (VObj [("name", VStr "Lounge")])); reflexivity.
Defined.

(** C4 does not hold as stated: right after A created the room "Lounge",
    [get_room_members] for its id reports no member and count 0, not the
    creator and count 1. *)
Lemma get_room_members_after_create_is_empty :
  let st1 :=
    (create_room Demo.env Demo.fresh "A" (VObj [("name", VStr "Lounge")])).1 in
  "A" ∈ Sio.members st1 ("room:" +:+ room_id Demo.env)
  ∧ ∃ p,
      (get_room_members st1 "A"
         (VObj [("roomId", VStr (room_id Demo.env))])).2
      = [mkDelivery "A" "room_members" p]
      ∧ JS.get "members" p = VArr []
      ∧ JS.get "count" p = VNum 0
      ∧ JS.get "members" p ≠ VArr [VStr "A"]
      ∧ JS.get "count" p ≠ VNum 1.
Proof.
  split; [vm_compute; reflexivity|].
  eexists. split; [reflexivity|]. repeat split; discriminate.
Qed.

(** ** Room ids *)

Lemma split_at_first c (a1 a2 r1 r2 : string) :
  free_of c a1 → free_of c a2 →
  a1 +:+ String c r1 = a2 +:+ String c r2 → a1 = a2 ∧ r1 = r2.
Proof.
  revert a2. induction a1 as [|x a1 IH]; intros [|y a2] H1 H2 Heq;
    cbn [String.append] in Heq; simpl in H1, H2.
  - by injection Heq as ->.
  - injection Heq as <- _. by destruct H2.
  - injection Heq as -> _. by destruct H1.
  - injection Heq as -> Heq.
    destruct (IH a2) as [-> ->]; [tauto..|done|done].
Qed.

Lemma pretty_N_char_free x : pretty_N_char x ≠ "_"%char.
Proof. unfold pretty_N_char. by repeat case_match. Qed.

Lemma pretty_N_go_free x s :
  free_of "_" s → free_of "_" (pretty_N_go x s).
Proof.
  revert s. induction (N.lt_wf_0 x) as [x _ IH]; intros s Hs.
  assert (x = 0 ∨ 0 < x)%N as [->|Hx] by lia.
  - by rewrite pretty_N_go_0.
  - rewrite pretty_N_go_step by done. apply IH.
    + by apply N.div_lt.
    + split; [apply pretty_N_char_free|done].
Qed.

Lemma pretty_N_free (x : N) : free_of "_" (pretty x).
Proof.
  unfold pretty, pretty_N. case_decide.
  - simpl. split; [discriminate|done].
  - by apply pretty_N_go_free.
Qed.

(** The id determines the clock reading and the random suffix it was made
    of. *)
Lemma room_id_inj e1 e2 :
  room_id e1 = room_id e2 → now e1 = now e2 ∧ rnd e1 = rnd e2.
Proof.
  unfold room_id. intros Heq.
  apply (inj (String.app "room_")) in Heq.
  apply split_at_first in Heq as [Hn Hr]; try apply pretty_N_free.
  split; [by apply (inj pretty)|done].
Qed.

Lemma returned_room_ids_app out1 out2 :
  returned_room_ids (out1 ++ out2)
  = (returned_room_ids out1 ++ returned_room_ids out2)%list.
Proof. apply omap_app. Qed.

Lemma returned_room_ids_send to ev p :
  ev ≠ "room_created_success" → returned_room_ids (Sio.send to ev p) = [].
Proof.
  intros Hev. unfold Sio.send, returned_room_ids.
  induction (elements to) as [|r l IH]; [done|].
  cbn [fmap list_fmap omap list_omap event]. by rewrite decide_False.
Qed.

Lemma create_room_returned_ids e st socket data :
  returned_room_ids (create_room e st socket data).2
  = if JS.nullish data then []
    else if JS.truthy (JS.get "name" data) then [VStr (room_id e)] else [].
Proof.
  destruct (JS.nullish data) eqn:Hd.
  - unfold create_room, destructure. by rewrite Hd.
  - destruct (JS.truthy (JS.get "name" data)) eqn:Hn.
    + destruct (create_room_run e st socket data Hd Hn) as [rc ->].
      cbn [snd]. rewrite returned_room_ids_app.
      unfold Sio.io_emit. by rewrite returned_room_ids_send.
    + unfold create_room, destructure. by rewrite Hd, Hn.
Qed.

Lemma create_rooms_elem ops st v :
  v ∈ create_rooms ops st →
  ∃ op, op ∈ ops ∧ v = VStr (room_id (op_env op)).
Proof.
  revert st. induction ops as [|op rest IH]; intros st Hv; simpl in Hv.
  - by apply elem_of_nil in Hv.
  - pose proof (create_room_returned_ids (op_env op) st (op_socket op)
                  (op_data op)) as Hids.
    destruct (create_room (op_env op) st (op_socket op) (op_data op))
      as [st' out]. simpl in Hids.
    apply elem_of_app in Hv as [Hv|Hv].
    + exists op. split; [left|].
      rewrite Hids in Hv. repeat case_match; set_solver.
    + destruct (IH _ Hv) as [op' [Hin ->]]. exists op'. split; [by right|done].
Qed.

(** C8, as the code has it.  The id of a room is made of the clock
    reading and a random suffix, and no list of the ids given out is kept:
    the ids returned by a sequence of [create_room] requests are pairwise
    distinct when no two of the requests saw the same clock reading
    together with the same random suffix. *)
Theorem create_room_ids_distinct ops st :
  NoDup ((fun op => (now (op_env op), rnd (op_env op))) <$> ops) →
  NoDup (create_rooms ops st).
Proof.
  revert st. induction ops as [|op rest IH]; intros st Hnd; simpl.
  - constructor.
  - rewrite fmap_cons in Hnd. apply NoDup_cons in Hnd as [Hnew Hnd].
    pose proof (create_room_returned_ids (op_env op) st (op_socket op)
                  (op_data op)) as Hids.
    destruct (create_room (op_env op) st (op_socket op) (op_data op))
      as [st' out]. simpl in Hids. rewrite Hids.
    assert (Hfresh : VStr (room_id (op_env op)) ∉ create_rooms rest st').
    { intros [op' [Hin Heq]]%create_rooms_elem. apply Hnew.
      assert (Hid : room_id (op_env op) = room_id (op_env op')) by congruence.
      apply room_id_inj in Hid as [Hn Hr].
      apply list_elem_of_fmap. exists op'. split; [by rewrite Hn, Hr|done]. }
    specialize (IH st' Hnd).
    repeat case_match; simpl; try done.
    by apply NoDup_cons.
Qed.

Lemma create_room_ids_distinct_witness :
  NoDup (create_rooms
           [mkCreateOp Demo.env "A" (VObj [("name", VStr "Lounge")]);
            mkCreateOp Demo.later "B" (VObj [("name", VStr "Lounge")])]
           Demo.fresh).
Proof.
  apply (create_room_ids_distinct
           [mkCreateOp Demo.env "A" (VObj [("name", VStr "Lounge")]);
            mkCreateOp Demo.later "B" (VObj [("name", VStr "Lounge")])]
           Demo.fresh).
  simpl. apply NoDup_cons. split.
  - intros Hin. apply list_elem_of_singleton in Hin. discriminate.
  - apply NoDup_singleton.
Defined.

(** C8 does not hold as stated: two [create_room] requests that see the
    same clock reading and draw the same random suffix are given the
    same room id. *)
Lemma create_room_id_repeats :
  create_rooms
    [mkCreateOp Demo.env "A" (VObj [("name", VStr "Lounge")]);
     mkCreateOp Demo.env "B" (VObj [("name", VStr "Den")])]
    Demo.fresh
  = [VStr "room_1700000000000_k3j9x0q2a"; VStr "room_1700000000000_k3j9x0q2a"]
  ∧ ¬ NoDup (create_rooms
               [mkCreateOp Demo.env "A" (VObj [("name", VStr "Lounge")]);
                mkCreateOp Demo.env "B" (VObj [("name", VStr "Den")])]
               Demo.fresh).
Proof.
  assert (Hids :
    create_rooms
      [mkCreateOp Demo.env "A" (VObj [("name", VStr "Lounge")]);
       mkCreateOp Demo.env "B" (VObj [("name", VStr "Den")])]
      Demo.fresh
    = [VStr "room_1700000000000_k3j9x0q2a"; VStr "room_1700000000000_k3j9x0q2a"])
    by (vm_compute; reflexivity).
  split; [exact Hids|]. rewrite Hids.
  intros [Hnotin _]%NoDup_cons. apply Hnotin. left.
Qed.

(** ** Disconnecting *)

Lemma not_member_leaveAll sid st room :
  sid ∉ Sio.members (Sio.leaveAll sid st) room.
Proof.
  unfold Sio.members, Sio.leaveAll; simpl.
  destruct (filter _ _ !! room) as [m|] eqn:Hm; simpl; [|set_solver].
  apply map_lookup_filter_Some in Hm as [Hm _].
  rewrite lookup_fmap in Hm.
  destruct (rooms st !! room) as [m0|]; simpl in Hm; [|done].
  injection Hm as <-. set_solver.
Qed.

Lemma disconnect_run e st socket :
  disconnect e st socket
  = ((getUserForSocket e socket st).2,
     Sio.send (connected st ∖ {[socket]}) "user_offline"
       (VObj [("userId", VStr (id (getUserForSocket e socket st).1));
              ("timestamp", VStr (iso e))])).
Proof.
  unfold disconnect, Sio.broadcast_emit.
  pose proof (getUserForSocket_connected e socket st) as Hc.
  destruct (getUserForSocket e socket st) as [u st']. simpl in *.
  by rewrite Hc.
Qed.

(** C3, as the code has it.  When a connected socket A that is in the
    rooms R1 and R2 disconnects, every other connected socket, in those
    rooms or not, receives one [user_offline] packet; that is the only
    kind of packet sent, so no [user_left] goes to the rooms; A has left
    R1 and R2 (socket.io removes it before the handler runs); and a second
    disconnect signal for A changes nothing and sends nothing. *)
Theorem disconnect_broadcasts_offline e e' st A R1 R2 other :
  A ∈ connected st →
  A ∈ Sio.members st R1 → A ∈ Sio.members st R2 →
  other ∈ connected st → other ≠ A →
  let '(st1, out) := transport_disconnect e st A in
  (∃ p, received other out = [("user_offline", p)]
        ∧ JS.get "userId" p
          = VStr (id (getUserForSocket e A (Sio.cleanup A st)).1))
  ∧ received A out = []
  ∧ (∀ d, d ∈ out → event d = "user_offline")
  ∧ (A ∉ Sio.members st1 R1)
  ∧ (A ∉ Sio.members st1 R2)
  ∧ transport_disconnect e' st1 A = (st1, []).
Proof.
  intros HA H1 H2 Ho Hne.
  unfold transport_disconnect at 1. rewrite decide_True by done.
  rewrite disconnect_run.
  assert (Hconn : connected (Sio.cleanup A st) = connected st ∖ {[A]}) by done.
  split; [|split; [|split; [|split; [|split]]]].
  - eexists. split.
    + rewrite received_send, Hconn. rewrite decide_True; [done|set_solver].
    + reflexivity.
  - rewrite received_send, Hconn. rewrite decide_False; [done|set_solver].
  - intros d Hd. unfold Sio.send in Hd.
    apply list_elem_of_fmap in Hd as [r [-> _]]. reflexivity.
  - rewrite getUserForSocket_members. apply not_member_leaveAll.
  - rewrite getUserForSocket_members. apply not_member_leaveAll.
  - unfold transport_disconnect. rewrite decide_False; [done|].
    rewrite getUserForSocket_connected, Hconn. set_solver.
Qed.

Lemma disconnect_broadcasts_offline_witness :
  let '(st1, out) := transport_disconnect Demo.later Demo.two_rooms "A" in
  (∃ p, received "C" out = [("user_offline", p)]
        ∧ JS.get "userId" p
          = VStr (id (getUserForSocket Demo.later "A"
                        (Sio.cleanup "A" Demo.two_rooms)).1))
  ∧ received "A" out = []
  ∧ (∀ d, d ∈ out → event d = "user_offline")
  ∧ ("A" ∉ Sio.members st1 "room:r1")
  ∧ ("A" ∉ Sio.members st1 "room:r2")
  ∧ transport_disconnect Demo.env st1 "A" = (st1, []).
Proof.
  apply (disconnect_broadcasts_offline Demo.later Demo.env Demo.two_rooms
           "A" "room:r1" "room:r2" "C").
  - vm_compute. reflexivity.
  - vm_compute. reflexivity.
  - vm_compute. reflexivity.
  - vm_compute. reflexivity.
  - discriminate.
Defined.

(** C3 does not hold as stated: when A, who shares the rooms r1 and r2
    with B, disconnects, nobody receives a [user_left] packet; B receives
    [user_offline], and so does C, who is in neither room. *)
Lemma disconnect_sends_no_user_left :
  let out := (transport_disconnect Demo.later Demo.two_rooms "A").2 in
  "B" ∈ Sio.members Demo.two_rooms "room:r1"
  ∧ "B" ∈ Sio.members Demo.two_rooms "room:r2"
  ∧ (∀ d, d ∈ out → event d ≠ "user_left")
  ∧ received "B" out
    = [("user_offline",
        VObj [("userId", VStr "A");
              ("timestamp", VStr "2023-11-14T22:13:20.001Z")])]
  ∧ received "C" out = received "B" out.
Proof.
  split; [vm_compute; reflexivity|].
  split; [vm_compute; reflexivity|].
  split; [|split; vm_compute; reflexivity].
  intros d Hd.
  pose proof (disconnect_run Demo.later (Sio.cleanup "A" Demo.two_rooms) "A") as Hrun.
  unfold transport_disconnect in Hd. rewrite decide_True in Hd by (vm_compute; reflexivity).
  rewrite Hrun in Hd. unfold Sio.send in Hd.
  apply list_elem_of_fmap in Hd as [r [-> _]]. discriminate.
Qed.

(** * More of the handlers *)

(** ** Leaving a room *)

Lemma rooms_leave sid room st :
  rooms (Sio.leave sid room st)
  = match rooms st !! room with
    | None => rooms st
    | Some m =>
        if decide (m ∖ {[sid]} = ∅) then delete room (rooms st)
        else <[room := m ∖ {[sid]}]> (rooms st)
    end.
Proof.
  unfold Sio.leave. destruct (rooms st !! room); [|done].
  simpl. by destruct (decide _).
Qed.

Lemma members_leave sid room st room' :
  Sio.members (Sio.leave sid room st) room'
  = if decide (room = room') then Sio.members st room ∖ {[sid]}
    else Sio.members st room'.
Proof.
  unfold Sio.members. rewrite rooms_leave.
  destruct (rooms st !! room) as [m|] eqn:Hm.
  - destruct (decide (m ∖ {[sid]} = ∅)) as [He|He];
      destruct (decide (room = room')) as [<-|Hne].
    + rewrite lookup_delete_eq. simpl. by rewrite He.
    + by rewrite lookup_delete_ne.
    + by rewrite lookup_insert_eq.
    + by rewrite lookup_insert_ne.
  - destruct (decide (room = room')) as [<-|Hne]; [|done].
    rewrite Hm. simpl. apply leibniz_equiv. set_solver.
Qed.

Lemma connected_leave sid room st :
  connected (Sio.leave sid room st) = connected st.
Proof.
  unfold Sio.leave. destruct (rooms st !! room); [|done].
  simpl. by destruct (decide _).
Qed.

Lemma user_leave sid room st : user (Sio.leave sid room st) = user st.
Proof.
  unfold Sio.leave. destruct (rooms st !! room); [|done].
  simpl. by destruct (decide _).
Qed.

(** What [leave_room] does for a room id that is truthy and has a
    name. *)
Lemma leave_room_run e st socket data roomName :
  JS.nullish data = false →
  JS.truthy (JS.get "roomId" data) = true →
  getRoomName (JS.get "roomId" data) = Normal roomName →
  leave_room e st socket data
  = (Sio.leave socket roomName (getUserForSocket e socket st).2,
     (Sio.to_emit (Sio.leave socket roomName (getUserForSocket e socket st).2)
        socket roomName "user_left"
        (VObj [("userId", VStr (id (getUserForSocket e socket st).1));
               ("user", user_card (getUserForSocket e socket st).1);
               ("timestamp", VStr (iso e))])
      ++ Sio.emit socket "room_left"
           (VObj [("roomId", JS.get "roomId" data);
                  ("message", VStr "Successfully left room")]))%list).
Proof.
  intros Hd Ht Hn. unfold leave_room, destructure. rewrite Hd, Ht. simpl.
  destruct (getUserForSocket e socket st). by rewrite Hn.
Qed.

Lemma leave_room_state e st socket data roomName :
  JS.nullish data = false →
  JS.truthy (JS.get "roomId" data) = true →
  getRoomName (JS.get "roomId" data) = Normal roomName →
  (leave_room e st socket data).1
  = Sio.leave socket roomName (getUserForSocket e socket st).2.
Proof. intros Hd Ht Hn. by rewrite (leave_room_run _ _ _ _ roomName). Qed.

Lemma leave_room_members e st socket data roomName room :
  JS.nullish data = false →
  JS.truthy (JS.get "roomId" data) = true →
  getRoomName (JS.get "roomId" data) = Normal roomName →
  Sio.members (leave_room e st socket data).1 room
  = if decide (roomName = room)
    then Sio.members st room ∖ {[socket]}
    else Sio.members st room.
Proof.
  intros Hd Ht Hn.
  rewrite (leave_room_state _ _ _ _ roomName), members_leave by done.
  destruct (decide _) as [->|]; by rewrite getUserForSocket_members.
Qed.

Lemma leave_room_connected e st socket data :
  connected (leave_room e st socket data).1 = connected st.
Proof.
  unfold leave_room, destructure.
  destruct (JS.nullish data); [done|].
  destruct (JS.truthy _); [|done]; simpl.
  pose proof (getUserForSocket_connected e socket st).
  destruct (getUserForSocket e socket st). simpl in *.
  destruct (getRoomName _); [|done]. cbn [fst].
  by rewrite connected_leave.
Qed.

(** X1. Joining a room and leaving it again puts the rooms back as they
    were: a socket that was not in the room is not in it afterwards, and
    a room that did not exist is deleted again. *)
Theorem join_then_leave_restores_rooms e e' st socket roomId roomName :
  JS.truthy roomId = true →
  getRoomName roomId = Normal roomName →
  socket ∉ Sio.members st roomName →
  rooms st !! roomName ≠ Some ∅ →
  rooms (leave_room e'
           (join_room e st socket (VObj [("roomId", roomId)])).1
           socket (VObj [("roomId", roomId)])).1
  = rooms st.
Proof.
  intros Ht Hn Hnot Hne.
  rewrite (leave_room_state _ _ _ _ roomName),
    (join_room_state _ _ _ _ roomName) by done.
  rewrite rooms_leave, getUserForSocket_rooms. unfold Sio.join at 1 2 3. simpl.
  rewrite lookup_insert_eq, getUserForSocket_members, getUserForSocket_rooms.
  assert (Hm : ({[socket]} ∪ Sio.members st roomName) ∖ {[socket]}
               = Sio.members st roomName) by set_solver.
  rewrite Hm. unfold Sio.members in *.
  destruct (rooms st !! roomName) as [m|] eqn:Hl; simpl in *.
  - rewrite decide_False by congruence.
    rewrite insert_insert_eq. by apply insert_id.
  - rewrite decide_True by done.
    rewrite delete_insert_eq. by apply delete_id.
Qed.

Lemma join_then_leave_restores_rooms_witness :
  rooms (leave_room Demo.later
           (join_room Demo.env Demo.two_rooms "C" (VObj [("roomId", VStr "r1")])).1
           "C" (VObj [("roomId", VStr "r1")])).1
  = rooms Demo.two_rooms.
Proof.
  apply (join_then_leave_restores_rooms Demo.env Demo.later Demo.two_rooms
           "C" (VStr "r1") "room:r1").
  - reflexivity.
  - reflexivity.
  - vm_compute. discriminate.
  - vm_compute. discriminate.
Defined.

(** X2. After [leave_room], a [send_message] to the room from any socket
    does not reach the socket that left. *)
Theorem no_message_after_leave e e' st A B data text :
  JS.nullish data = false →
  JS.truthy (JS.get "roomId" data) = true →
  JS.truthy (JS.get "content" data) = true →
  JS.toString (JS.get "roomId" data) = Normal text →
  received A
    (send_message e'
       (leave_room e st A (VObj [("roomId", JS.get "roomId" data)])).1 B data).2
  = [].
Proof.
  intros Hd Ht Hc Hn.
  rewrite (send_message_received _ _ _ _ text) by done.
  rewrite (leave_room_members _ _ _ _ ("room:" +:+ text))
    by (done || by apply getRoomName_of_text).
  rewrite (decide_True (P := "room:" +:+ text = "room:" +:+ text)) by done.
  rewrite decide_False; [done|set_solver].
Qed.

Lemma no_message_after_leave_witness :
  received "A"
    (send_message Demo.later
       (leave_room Demo.env Demo.two_rooms "A" (VObj [("roomId", VStr "r1")])).1
       "B" (VObj [("roomId", VStr "r1"); ("content", VStr "hi")])).2
  = [].
Proof.
  apply (no_message_after_leave Demo.env Demo.later Demo.two_rooms "A" "B"
           (VObj [("roomId", VStr "r1"); ("content", VStr "hi")]) "r1");
    reflexivity.
Defined.

(** X3. [leave_room] does not check that the socket is in the room: a
    socket that is not a member still has [user_left] sent to every
    connected member and [room_left] to itself, and the membership of the
    room stays as it was. *)
Theorem leave_room_by_a_stranger e st socket member roomId roomName :
  JS.truthy roomId = true →
  getRoomName roomId = Normal roomName →
  socket ∉ Sio.members st roomName →
  member ∈ Sio.members st roomName →
  member ∈ connected st →
  let '(st1, out) := leave_room e st socket (VObj [("roomId", roomId)]) in
  Sio.members st1 roomName = Sio.members st roomName
  ∧ (∃ p, received member out = [("user_left", p)]
          ∧ JS.get "userId" p = VStr (id (getUserForSocket e socket st).1))
  ∧ received socket out
    = [("room_left",
        VObj [("roomId", roomId); ("message", VStr "Successfully left room")])].
Proof.
  intros Ht Hn Hnot Hin Hconn.
  pose proof (leave_room_members e st socket (VObj [("roomId", roomId)])
                roomName roomName eq_refl Ht Hn) as Hmem.
  pose proof (leave_room_connected e st socket (VObj [("roomId", roomId)]))
    as Hc.
  rewrite (leave_room_run _ _ _ _ roomName) in * by done.
  cbn [fst snd] in *. rewrite decide_True in Hmem by done.
  assert (Hsame : Sio.members
                    (Sio.leave socket roomName (getUserForSocket e socket st).2)
                    roomName
                  = Sio.members st roomName) by set_solver.
  split; [done|]. rewrite !received_app, !received_to_emit, !received_emit.
  rewrite Hsame, Hc. split.
  - eexists. split.
    + rewrite decide_True by set_solver. rewrite decide_False by set_solver.
      reflexivity.
    + reflexivity.
  - rewrite decide_False by set_solver. by rewrite decide_True.
Qed.

Lemma leave_room_by_a_stranger_witness :
  let '(st1, out) :=
    leave_room Demo.later Demo.two_rooms "C" (VObj [("roomId", VStr "r1")]) in
  Sio.members st1 "room:r1" = Sio.members Demo.two_rooms "room:r1"
  ∧ (∃ p, received "B" out = [("user_left", p)]
          ∧ JS.get "userId" p
            = VStr (id (getUserForSocket Demo.later "C" Demo.two_rooms).1))
  ∧ received "C" out
    = [("room_left",
        VObj [("roomId", VStr "r1");
              ("message", VStr "Successfully left room")])].
Proof.
  apply (leave_room_by_a_stranger Demo.later Demo.two_rooms "C" "B" (VStr "r1")
           "room:r1").
  - reflexivity.
  - reflexivity.
  - vm_compute. discriminate.
  - vm_compute. reflexivity.
  - vm_compute. reflexivity.
Defined.

(** ** Who is told what *)

(** X4. When a socket joins a room, every connected socket already in the
    room receives one [user_joined] packet naming the joiner, the joiner
    receives [room_joined] alone, and a socket outside the room receives
    nothing. *)
Theorem join_room_tells_the_room e st joiner member outsider roomId roomName :
  JS.truthy roomId = true →
  getRoomName roomId = Normal roomName →
  member ∈ Sio.members st roomName → member ∈ connected st →
  member ≠ joiner →
  outsider ∉ Sio.members st roomName → outsider ≠ joiner →
  let out := (join_room e st joiner (VObj [("roomId", roomId)])).2 in
  received member out
  = [("user_joined",
      VObj [("userId", VStr (id (getUserForSocket e joiner st).1));
            ("user", user_card (getUserForSocket e joiner st).1);
            ("timestamp", VStr (iso e))])]
  ∧ received joiner out
    = [("room_joined",
        VObj [("roomId", roomId);
              ("message", VStr "Successfully joined room")])]
  ∧ received outsider out = [].
Proof.
  intros Ht Hn Hm Hc Hne Ho Hoj out. unfold out.
  rewrite (join_room_run _ _ _ _ roomName) by done. cbn [snd JS.get JS.assoc].
  rewrite !received_app, !received_to_emit, !received_emit.
  rewrite members_join, getUserForSocket_members.
  cbn [connected Sio.join Sio.set_rooms]. rewrite getUserForSocket_connected.
  rewrite !(decide_True (P := roomName = roomName)) by done.
  split; [|split].
  - rewrite decide_True by set_solver. by rewrite decide_False.
  - rewrite decide_False by set_solver. by rewrite decide_True.
  - rewrite decide_False by set_solver. by rewrite decide_False.
Qed.

Lemma join_room_tells_the_room_witness :
  let out :=
    (join_room Demo.later Demo.two_rooms "C" (VObj [("roomId", VStr "r1")])).2 in
  received "A" out
  = [("user_joined",
      VObj [("userId",
             VStr (id (getUserForSocket Demo.later "C" Demo.two_rooms).1));
            ("user", user_card (getUserForSocket Demo.later "C" Demo.two_rooms).1);
            ("timestamp", VStr (iso Demo.later))])]
  ∧ received "C" out
    = [("room_joined",
        VObj [("roomId", VStr "r1");
              ("message", VStr "Successfully joined room")])]
  ∧ received "D" out = [].
Proof.
  apply (join_room_tells_the_room Demo.later Demo.two_rooms "C" "A" "D"
           (VStr "r1") "room:r1").
  - reflexivity.
  - reflexivity.
  - vm_compute. reflexivity.
  - vm_compute. reflexivity.
  - discriminate.
  - vm_compute. discriminate.
  - discriminate.
Defined.

(** X5. [send_message] does not check that the sender is in the room: a
    socket that never joined still reaches every connected member, and
    gets no echo itself; the rooms and the connected sockets are
    unchanged. *)
Theorem send_message_from_outside e st sender member data text :
  JS.nullish data = false →
  JS.truthy (JS.get "roomId" data) = true →
  JS.truthy (JS.get "content" data) = true →
  JS.toString (JS.get "roomId" data) = Normal text →
  sender ∉ Sio.members st ("room:" +:+ text) →
  member ∈ Sio.members st ("room:" +:+ text) →
  member ∈ connected st →
  let '(st1, out) := send_message e st sender data in
  getRoomName (JS.get "roomId" data) = Normal ("room:" +:+ text)
  ∧ (∃ message,
      received member out
      = [("message_sent", VObj [("message", message)]);
         ("new_message", message)]
      ∧ JS.get "content" message = JS.get "content" data
      ∧ JS.get "senderId" message = VStr (id (getUserForSocket e sender st).1))
  ∧ received sender out = []
  ∧ rooms st1 = rooms st
  ∧ connected st1 = connected st.
Proof.
  intros Hd Hr Hc Hn Hs Hm Hconn.
  pose proof (send_message_received e st sender data text member Hd Hr Hc Hn)
    as Hmem.
  pose proof (send_message_received e st sender data text sender Hd Hr Hc Hn)
    as Hsend.
  rewrite (send_message_run _ _ _ _ text) in * by done.
  cbv zeta in *. cbn [fst snd] in *.
  rewrite decide_True in Hmem by set_solver.
  rewrite decide_False in Hsend by set_solver.
  split; [by apply getRoomName_of_text|].
  split; [|split; [done|]].
  - eexists. split; [exact Hmem|]. split; reflexivity.
  - by rewrite getUserForSocket_rooms, getUserForSocket_connected.
Qed.

Lemma send_message_from_outside_witness :
  let '(st1, out) :=
    send_message Demo.later Demo.two_rooms "C"
      (VObj [("roomId", VStr "r1"); ("content", VStr "hi")]) in
  getRoomName (VStr "r1") = Normal "room:r1"
  ∧ (∃ message,
      received "A" out
      = [("message_sent", VObj [("message", message)]);
         ("new_message", message)]
      ∧ JS.get "content" message = VStr "hi"
      ∧ JS.get "senderId" message
        = VStr (id (getUserForSocket Demo.later "C" Demo.two_rooms).1))
  ∧ received "C" out = []
  ∧ rooms st1 = rooms Demo.two_rooms
  ∧ connected st1 = connected Demo.two_rooms.
Proof.
  apply (send_message_from_outside Demo.later Demo.two_rooms "C" "A"
           (VObj [("roomId", VStr "r1"); ("content", VStr "hi")]) "r1").
  - reflexivity.
  - reflexivity.
  - reflexivity.
  - reflexivity.
  - vm_compute. discriminate.
  - vm_compute. reflexivity.
  - vm_compute. reflexivity.
Defined.

(** ** Edits and deletions go to the sender's rooms *)

Lemma elem_of_socket_rooms st socket room :
  room ∈ socket_rooms st socket ↔ socket ∈ Sio.members st room.
Proof.
  unfold socket_rooms, Sio.members. rewrite list_elem_of_fmap. split.
  - intros [[k m] [-> [Hin Hkm]%list_elem_of_filter]].
    apply elem_of_map_to_list in Hkm. simpl in *. by rewrite Hkm.
  - intros Hin. destruct (rooms st !! room) as [m|] eqn:Hm; simpl in Hin;
      [|set_solver].
    exists (room, m). split; [done|].
    apply list_elem_of_filter. split; [done|].
    by apply elem_of_map_to_list.
Qed.

Lemma NoDup_socket_rooms st socket : NoDup (socket_rooms st socket).
Proof.
  unfold socket_rooms.
  assert (Hsub : ∀ (l : list (string * gset string)),
            NoDup l.*1 →
            NoDup (filter (fun kv : string * gset string => socket ∈ kv.2) l).*1).
  { induction l as [|kv l IH]; [done|]. rewrite fmap_cons.
    intros [Hnot Hnd]%NoDup_cons. rewrite filter_cons.
    destruct (decide _); [|by apply IH].
    rewrite fmap_cons. apply NoDup_cons. split; [|by apply IH].
    intros [kv' [Heq [_ Hin]%list_elem_of_filter]]%list_elem_of_fmap.
    apply Hnot. apply list_elem_of_fmap. by exists kv'. }
  apply Hsub, NoDup_fst_map_to_list.
Qed.

Lemma elem_of_shared_rooms st a b room :
  room ∈ shared_rooms st a b
  ↔ String.prefix "room:" room = true
    ∧ a ∈ Sio.members st room ∧ b ∈ Sio.members st room.
Proof.
  unfold shared_rooms. rewrite list_elem_of_filter, elem_of_socket_rooms.
  tauto.
Qed.

Lemma NoDup_shared_rooms st a b : NoDup (shared_rooms st a b).
Proof. apply NoDup_filter, NoDup_socket_rooms. Qed.

Lemma received_emit_to_own_rooms st socket ev p sid :
  received sid (emit_to_own_rooms st socket ev p)
  = if decide (sid ∈ connected st)
    then replicate (length (shared_rooms st socket sid)) (ev, p)
    else [].
Proof.
  unfold emit_to_own_rooms, shared_rooms.
  induction (socket_rooms st socket) as [|room l IH]; simpl.
  - by destruct (decide _).
  - rewrite received_app, IH, filter_cons.
    destruct (String.prefix "room:" room) eqn:Hp.
    + unfold Sio.io_to_emit. rewrite received_send.
      destruct (decide (sid ∈ connected st)) as [Hc|Hc].
      * destruct (decide (sid ∈ Sio.members st room)) as [Hm|Hm].
        -- rewrite decide_True by set_solver. by rewrite decide_True.
        -- rewrite decide_False by set_solver.
           rewrite decide_False; [done|tauto].
      * rewrite decide_False by set_solver. done.
    + destruct (decide (false = true ∧ _)) as [[? _]|_]; [done|].
      by destruct (decide _).
Qed.

Lemma edit_message_packets e st socket data :
  JS.nullish data = false →
  JS.truthy (JS.get "messageId" data) = true →
  JS.truthy (JS.get "content" data) = true →
  edit_message e st socket data
  = ((getUserForSocket e socket st).2,
     emit_to_own_rooms (getUserForSocket e socket st).2 socket "message_edited"
       (VObj [("id", JS.get "messageId" data);
              ("content", JS.get "content" data);
              ("isEdited", VBool true); ("editedAt", VStr (iso e));
              ("sender", user_name (getUserForSocket e socket st).1)])).
Proof.
  intros Hd Hm Hc. unfold edit_message, destructure. rewrite Hd, Hm, Hc. simpl.
  by destruct (getUserForSocket e socket st).
Qed.

Lemma delete_message_packets e st socket data :
  JS.nullish data = false →
  JS.truthy (JS.get "messageId" data) = true →
  delete_message e st socket data
  = ((getUserForSocket e socket st).2,
     emit_to_own_rooms (getUserForSocket e socket st).2 socket "message_deleted"
       (VObj [("messageId", JS.get "messageId" data);
              ("deletedBy", VStr (id (getUserForSocket e socket st).1));
              ("timestamp", VStr (iso e))])).
Proof.
  intros Hd Hm. unfold delete_message, destructure. rewrite Hd, Hm. simpl.
  by destruct (getUserForSocket e socket st).
Qed.

Lemma shared_rooms_getUserForSocket e socket st a b :
  shared_rooms (getUserForSocket e socket st).2 a b = shared_rooms st a b.
Proof.
  unfold shared_rooms, socket_rooms, Sio.members.
  by rewrite getUserForSocket_rooms.
Qed.

(** X6. [edit_message] sends [message_edited] once for every room of the
    sender: a connected socket receives as many copies of the packet as
    there are rooms named [room:...] that hold both it and the sender,
    each room counted once. *)
Theorem edit_message_once_per_shared_room e st sender sid data :
  JS.nullish data = false →
  JS.truthy (JS.get "messageId" data) = true →
  JS.truthy (JS.get "content" data) = true →
  sid ∈ connected st →
  received sid (edit_message e st sender data).2
  = replicate (length (shared_rooms st sender sid))
      ("message_edited",
       VObj [("id", JS.get "messageId" data);
             ("content", JS.get "content" data);
             ("isEdited", VBool true); ("editedAt", VStr (iso e));
             ("sender", user_name (getUserForSocket e sender st).1)])
  ∧ NoDup (shared_rooms st sender sid)
  ∧ ∀ room, room ∈ shared_rooms st sender sid
            ↔ String.prefix "room:" room = true
              ∧ sender ∈ Sio.members st room ∧ sid ∈ Sio.members st room.
Proof.
  intros Hd Hm Hc Hconn.
  rewrite edit_message_packets by done. cbn [snd].
  rewrite received_emit_to_own_rooms, getUserForSocket_connected,
    shared_rooms_getUserForSocket.
  rewrite decide_True by done.
  split; [done|]. split; [apply NoDup_shared_rooms|].
  apply elem_of_shared_rooms.
Qed.

Lemma edit_message_once_per_shared_room_witness :
  received "B"
    (edit_message Demo.later Demo.two_rooms "A"
       (VObj [("messageId", VStr "m1"); ("content", VStr "fixed")])).2
  = replicate (length (shared_rooms Demo.two_rooms "A" "B"))
      ("message_edited",
       VObj [("id", VStr "m1"); ("content", VStr "fixed");
             ("isEdited", VBool true); ("editedAt", VStr (iso Demo.later));
             ("sender",
              user_name (getUserForSocket Demo.later "A" Demo.two_rooms).1)])
  ∧ NoDup (shared_rooms Demo.two_rooms "A" "B")
  ∧ ∀ room, room ∈ shared_rooms Demo.two_rooms "A" "B"
            ↔ String.prefix "room:" room = true
              ∧ "A" ∈ Sio.members Demo.two_rooms room
              ∧ "B" ∈ Sio.members Demo.two_rooms room.
Proof.
  apply (edit_message_once_per_shared_room Demo.later Demo.two_rooms "A" "B"
           (VObj [("messageId", VStr "m1"); ("content", VStr "fixed")])).
  - reflexivity.
  - reflexivity.
  - reflexivity.
  - vm_compute. reflexivity.
Defined.

(** In the scenario B, who shares the rooms r1 and r2 with A, is sent the
    edit twice. *)
Example edit_message_twice :
  length (received "B"
            (edit_message Demo.later Demo.two_rooms "A"
               (VObj [("messageId", VStr "m1"); ("content", VStr "fixed")])).2)
  = 2.
Proof. vm_compute. reflexivity. Qed.

Lemma socket_rooms_nil st socket :
  (∀ room, socket ∉ Sio.members st room) → socket_rooms st socket = [].
Proof.
  intros Hnone. destruct (socket_rooms st socket) as [|room l] eqn:Hl; [done|].
  exfalso. apply (Hnone room). apply elem_of_socket_rooms. rewrite Hl. left.
Qed.

(** X7. A socket that is in no room edits and deletes into the void:
    [edit_message] and [delete_message] with a valid payload send no
    packet at all, not even to the sender. *)
Theorem edit_and_delete_without_rooms e st socket data :
  (∀ room, socket ∉ Sio.members st room) →
  JS.nullish data = false →
  JS.truthy (JS.get "messageId" data) = true →
  JS.truthy (JS.get "content" data) = true →
  (edit_message e st socket data).2 = []
  ∧ (delete_message e st socket data).2 = [].
Proof.
  intros Hnone Hd Hm Hc.
  rewrite edit_message_packets, delete_message_packets by done. cbn [snd].
  unfold emit_to_own_rooms.
  rewrite socket_rooms_nil; [done|].
  intros room. by rewrite getUserForSocket_members.
Qed.

Lemma edit_and_delete_without_rooms_witness :
  (edit_message Demo.env Demo.fresh "A"
     (VObj [("messageId", VStr "m1"); ("content", VStr "fixed")])).2 = []
  ∧ (delete_message Demo.env Demo.fresh "A"
       (VObj [("messageId", VStr "m1"); ("content", VStr "fixed")])).2 = [].
Proof.
  apply (edit_and_delete_without_rooms Demo.env Demo.fresh "A"
           (VObj [("messageId", VStr "m1"); ("content", VStr "fixed")])).
  - intros room. vm_compute. discriminate.
  - reflexivity.
  - reflexivity.
  - reflexivity.
Defined.

(** X8. [delete_message] sends [message_deleted], naming the sender in
    [deletedBy], once for every room named [room:...] that holds both the
    sender and the receiving socket, each room counted once; a connected
    socket that shares no such room with the sender receives nothing. *)
Theorem delete_message_once_per_shared_room e st sender sid data :
  JS.nullish data = false →
  JS.truthy (JS.get "messageId" data) = true →
  sid ∈ connected st →
  received sid (delete_message e st sender data).2
  = replicate (length (shared_rooms st sender sid))
      ("message_deleted",
       VObj [("messageId", JS.get "messageId" data);
             ("deletedBy", VStr (id (getUserForSocket e sender st).1));
             ("timestamp", VStr (iso e))])
  ∧ NoDup (shared_rooms st sender sid)
  ∧ ∀ room, room ∈ shared_rooms st sender sid
            ↔ String.prefix "room:" room = true
              ∧ sender ∈ Sio.members st room ∧ sid ∈ Sio.members st room.
Proof.
  intros Hd Hm Hconn.
  rewrite delete_message_packets by done. cbn [snd].
  rewrite received_emit_to_own_rooms, getUserForSocket_connected,
    shared_rooms_getUserForSocket.
  rewrite decide_True by done.
  split; [done|]. split; [apply NoDup_shared_rooms|].
  apply elem_of_shared_rooms.
Qed.

Lemma delete_message_once_per_shared_room_witness :
  received "B"
    (delete_message Demo.later Demo.two_rooms "A"
       (VObj [("messageId", VStr "m1")])).2
  = replicate (length (shared_rooms Demo.two_rooms "A" "B"))
      ("message_deleted",
       VObj [("messageId", VStr "m1");
             ("deletedBy",
              VStr (id (getUserForSocket Demo.later "A" Demo.two_rooms).1));
             ("timestamp", VStr (iso Demo.later))])
  ∧ NoDup (shared_rooms Demo.two_rooms "A" "B")
  ∧ ∀ room, room ∈ shared_rooms Demo.two_rooms "A" "B"
            ↔ String.prefix "room:" room = true
              ∧ "A" ∈ Sio.members Demo.two_rooms room
              ∧ "B" ∈ Sio.members Demo.two_rooms room.
Proof.
  apply (delete_message_once_per_shared_room Demo.later Demo.two_rooms "A" "B"
           (VObj [("messageId", VStr "m1")])).
  - reflexivity.
  - reflexivity.
  - vm_compute. reflexivity.
Defined.

(** ** Rooms: updating, asking, the second pair of join and leave *)

Lemma received_io_to_emit st room ev p sid :
  received sid (Sio.io_to_emit st room ev p)
  = if decide (sid ∈ Sio.members st room ∩ connected st)
    then [(ev, p)] else [].
Proof. apply received_send. Qed.

Lemma update_room_run e st socket data text :
  JS.nullish data = false →
  JS.truthy (JS.get "roomId" data) = true →
  JS.toString (JS.get "roomId" data) = Normal text →
  update_room e st socket data
  = let updatedRoom :=
      VObj [("id", JS.get "roomId" data);
            ("name",
             if JS.truthy (JS.get "name" data) then JS.get "name" data
             else VStr ("Room " +:+ text));
            ("description", JS.or (JS.get "description" data) (VStr "Demo room"));
            ("maxMembers", JS.or (JS.get "maxMembers" data) (VNum 100));
            ("updatedBy", user_name (getUserForSocket e socket st).1);
            ("timestamp", VStr (iso e))] in
    ((getUserForSocket e socket st).2,
     (Sio.io_to_emit (getUserForSocket e socket st).2
        ("room:" +:+ text) "room_updated"
        (VObj [("room", updatedRoom)])
      ++ Sio.emit socket "room_updated_success"
           (VObj [("room", updatedRoom);
                  ("message", VStr "Room updated successfully")]))%list).
Proof.
  intros Hd Ht Hn. unfold update_room, destructure. rewrite Hd, Ht. simpl.
  destruct (getUserForSocket e socket st).
  unfold make_updated_room, name_or_default.
  rewrite (getRoomName_of_text _ _ Hn), Hn.
  by destruct (JS.truthy (JS.get "name" data)).
Qed.

(** X9. [update_room] checks neither ownership nor membership and stores
    nothing: for a room id that is truthy and prints as [text], whoever
    sends it, every connected member of the room [room:text] receives one
    [room_updated] packet, in which a missing or falsy name, description
    or maxMembers is replaced by "Room <text>", "Demo room" or 100; the
    sender who is not in the room receives [room_updated_success] alone;
    the rooms are unchanged. *)
Theorem update_room_by_anyone e st sender member data text :
  JS.nullish data = false →
  JS.truthy (JS.get "roomId" data) = true →
  JS.toString (JS.get "roomId" data) = Normal text →
  sender ∉ Sio.members st ("room:" +:+ text) →
  member ∈ Sio.members st ("room:" +:+ text) →
  member ∈ connected st →
  let '(st1, out) := update_room e st sender data in
  let room :=
    VObj [("id", JS.get "roomId" data);
          ("name",
           if JS.truthy (JS.get "name" data) then JS.get "name" data
           else VStr ("Room " +:+ text));
          ("description",
           if JS.truthy (JS.get "description" data)
           then JS.get "description" data else VStr "Demo room");
          ("maxMembers",
           if JS.truthy (JS.get "maxMembers" data)
           then JS.get "maxMembers" data else VNum 100);
          ("updatedBy", user_name (getUserForSocket e sender st).1);
          ("timestamp", VStr (iso e))] in
  getRoomName (JS.get "roomId" data) = Normal ("room:" +:+ text)
  ∧ received member out = [("room_updated", VObj [("room", room)])]
  ∧ received sender out
    = [("room_updated_success",
        VObj [("room", room); ("message", VStr "Room updated successfully")])]
  ∧ rooms st1 = rooms st.
Proof.
  intros Hd Ht Hn Hs Hm Hc. rewrite (update_room_run _ _ _ _ text) by done.
  cbv beta iota zeta. unfold JS.or.
  rewrite !received_app, !received_io_to_emit, !received_emit.
  rewrite getUserForSocket_members, getUserForSocket_connected,
    getUserForSocket_rooms.
  split; [by apply getRoomName_of_text|]. split; [|split; [|done]].
  - rewrite decide_True by set_solver.
    rewrite decide_False by set_solver. reflexivity.
  - rewrite decide_False by set_solver. by rewrite decide_True.
Qed.

Lemma update_room_by_anyone_witness :
  let '(st1, out) :=
    update_room Demo.later Demo.two_rooms "C"
      (VObj [("roomId", VStr "r1"); ("maxMembers", VNum 0)]) in
  let room :=
    VObj [("id", VStr "r1"); ("name", VStr "Room r1");
          ("description", VStr "Demo room"); ("maxMembers", VNum 100);
          ("updatedBy",
           user_name (getUserForSocket Demo.later "C" Demo.two_rooms).1);
          ("timestamp", VStr (iso Demo.later))] in
  getRoomName (VStr "r1") = Normal "room:r1"
  ∧ received "A" out = [("room_updated", VObj [("room", room)])]
  ∧ received "C" out
    = [("room_updated_success",
        VObj [("room", room); ("message", VStr "Room updated successfully")])]
  ∧ rooms st1 = rooms Demo.two_rooms.
Proof.
  apply (update_room_by_anyone Demo.later Demo.two_rooms "C" "A"
           (VObj [("roomId", VStr "r1"); ("maxMembers", VNum 0)]) "r1").
  - reflexivity.
  - reflexivity.
  - reflexivity.
  - vm_compute. discriminate.
  - vm_compute. reflexivity.
  - vm_compute. reflexivity.
Defined.

(** X10. [get_room_info] and [get_room_members] never look at the
    server.  For a truthy room id [get_room_members] answers the sender
    alone with an empty member list, in every state.  [get_room_info]
    does the same with a room named "Room <text>" when the room id
    prints as [text]; when the room id cannot be printed it answers the
    sender with the error packet of [handleSocketError].  Neither
    changes the state. *)
Theorem room_queries_ignore_the_state e st st' socket data :
  JS.nullish data = false →
  JS.truthy (JS.get "roomId" data) = true →
  match JS.toString (JS.get "roomId" data) with
  | Normal text =>
      ∃ p, get_room_info e st socket data
           = (st, [mkDelivery socket "room_info" p])
           ∧ (get_room_info e st' socket data).2
             = [mkDelivery socket "room_info" p]
           ∧ JS.get "name" (JS.get "room" p) = VStr ("Room " +:+ text)
           ∧ JS.get "memberCount" (JS.get "room" p) = VNum 1
           ∧ JS.get "id" (JS.get "createdBy" (JS.get "room" p))
             = VStr "demo-user"
  | Throw error =>
      get_room_info e st socket data = (st, handleSocketError socket error)
      ∧ (get_room_info e st' socket data).2 = handleSocketError socket error
  end
  ∧ (∃ p, get_room_members st socket data
          = (st, [mkDelivery socket "room_members" p])
          ∧ (get_room_members st' socket data).2
            = [mkDelivery socket "room_members" p]
          ∧ JS.get "members" p = VArr []).
Proof.
  intros Hd Ht. unfold get_room_info, get_room_members, destructure.
  rewrite Hd, Ht. simpl. split.
  - destruct (JS.toString (JS.get "roomId" data)); [|done].
    eexists; repeat split.
  - eexists; repeat split.
Qed.

Lemma room_queries_ignore_the_state_witness :
  (∃ p, get_room_info Demo.env Demo.fresh "A" (VObj [("roomId", VStr "r1")])
        = (Demo.fresh, [mkDelivery "A" "room_info" p])
        ∧ (get_room_info Demo.env Demo.two_rooms "A"
             (VObj [("roomId", VStr "r1")])).2
          = [mkDelivery "A" "room_info" p]
        ∧ JS.get "name" (JS.get "room" p) = VStr "Room r1"
        ∧ JS.get "memberCount" (JS.get "room" p) = VNum 1
        ∧ JS.get "id" (JS.get "createdBy" (JS.get "room" p)) = VStr "demo-user")
  ∧ (∃ p, get_room_members Demo.fresh "A" (VObj [("roomId", VStr "r1")])
          = (Demo.fresh, [mkDelivery "A" "room_members" p])
          ∧ (get_room_members Demo.two_rooms "A"
               (VObj [("roomId", VStr "r1")])).2
            = [mkDelivery "A" "room_members" p]
          ∧ JS.get "members" p = VArr []).
Proof.
  apply (room_queries_ignore_the_state Demo.env Demo.fresh Demo.two_rooms "A"
           (VObj [("roomId", VStr "r1")])); reflexivity.
Defined.

(** X11. The handlers [join_room_request] and [leave_room_request] of
    roomEvents change the state exactly as [join_room] and [leave_room]
    of chatEvents do, for every payload, so a room joined with the one
    can be left with the other; [join_room_request] sends its packets to
    the same sockets as [join_room], under the names [user_joined_room]
    and [room_joined_success]. *)
Theorem room_requests_act_as_chat_handlers e st socket data :
  (join_room_request e st socket data).1 = (join_room e st socket data).1
  ∧ (leave_room_request e st socket data).1 = (leave_room e st socket data).1
  ∧ event <$> (join_room_request e st socket data).2
    = (fun ev => if String.eqb ev "user_joined" then "user_joined_room"
                 else if String.eqb ev "room_joined" then "room_joined_success"
                 else ev)
      <$> (event <$> (join_room e st socket data).2)
  ∧ dest <$> (join_room_request e st socket data).2
    = dest <$> (join_room e st socket data).2.
Proof.
  unfold join_room_request, join_room, leave_room_request, leave_room,
    destructure.
  destruct (JS.nullish data); [done|].
  destruct (JS.truthy (JS.get "roomId" data)); [|done]. simpl.
  destruct (getUserForSocket e socket st) as [u st0]. simpl.
  destruct (getRoomName (JS.get "roomId" data)) as [roomName|error];
    [|done].
  cbn [fst snd].
  split; [done|]. split; [done|].
  unfold Sio.to_emit, Sio.send, Sio.emit.
  rewrite !fmap_app, <- !list_fmap_compose. simpl.
  split; [|done].
  by f_equal.
Qed.

(** ** Users: the online list, status and profile *)

Lemma update_profile_run e st socket data :
  JS.nullish data = false →
  update_profile e st socket data
  = let u := with_profile data (getUserForSocket e socket st).1 in
    let st1 := set_user socket u (getUserForSocket e socket st).2 in
    (st1,
     (Sio.broadcast_emit st1 socket "user_profile_updated"
        (VObj [("userId", VStr (id u)); ("user", user_card u);
               ("timestamp", VStr (iso e))])
      ++ Sio.emit socket "profile_updated"
           (VObj [("user", user_card u);
                  ("message", VStr "Profile updated successfully")]))%list).
Proof.
  intros Hd. unfold update_profile, destructure, with_profile, assigned.
  rewrite Hd. destruct (getUserForSocket e socket st) as [u st0].
  cbv beta iota zeta. cbn [fst snd].
  destruct u as [i f l em a r o ls]; cbn [id firstName lastName email avatar
    role isOnline lastSeen].
  by destruct (JS.truthy (JS.get "firstName" data)),
       (JS.truthy (JS.get "lastName" data)),
       (JS.truthy (JS.get "avatar" data)).
Qed.

Lemma update_profile_connected e st socket data :
  connected (update_profile e st socket data).1 = connected st.
Proof.
  destruct (JS.nullish data) eqn:Hd.
  - unfold update_profile, destructure. by rewrite Hd.
  - rewrite update_profile_run by done. cbn.
    apply getUserForSocket_connected.
Qed.


Lemma update_status_run e st socket data :
  JS.nullish data = false →
  update_status e st socket data
  = ((getUserForSocket e socket st).2,
     (Sio.broadcast_emit (getUserForSocket e socket st).2 socket
        "user_status_update"
        (VObj [("userId", VStr (id (getUserForSocket e socket st).1));
               ("status", JS.get "status" data);
               ("timestamp", VStr (iso e))])
      ++ Sio.emit socket "status_updated"
           (VObj [("status", JS.get "status" data);
                  ("message", VStr "Status updated successfully")]))%list).
Proof.
  intros Hd. unfold update_status, destructure. rewrite Hd.
  by destruct (getUserForSocket e socket st).
Qed.

Lemma received_broadcast_emit st socket ev p sid :
  received sid (Sio.broadcast_emit st socket ev p)
  = if decide (sid ∈ connected st ∖ {[socket]}) then [(ev, p)] else [].
Proof. apply received_send. Qed.

(** X13. [update_status] passes the status on as it came, whatever it is
    (nothing checks it, and a payload without [status] sends
    [undefined]): every other connected socket receives one
    [user_status_update] with it, the sender receives [status_updated],
    and the status is stored nowhere: the state is the one
    [getUserForSocket] leaves. *)
Theorem update_status_relays e st sender other data :
  JS.nullish data = false →
  other ∈ connected st → other ≠ sender →
  let '(st1, out) := update_status e st sender data in
  received other out
  = [("user_status_update",
      VObj [("userId", VStr (id (getUserForSocket e sender st).1));
            ("status", JS.get "status" data);
            ("timestamp", VStr (iso e))])]
  ∧ received sender out
    = [("status_updated",
        VObj [("status", JS.get "status" data);
              ("message", VStr "Status updated successfully")])]
  ∧ st1 = (getUserForSocket e sender st).2.
Proof.
  intros Hd Hc Hne. rewrite update_status_run by done.
  rewrite !received_app, !received_broadcast_emit, !received_emit.
  rewrite getUserForSocket_connected.
  split; [|split; [|done]].
  - rewrite decide_True by set_solver. by rewrite decide_False.
  - rewrite decide_False by set_solver. by rewrite decide_True.
Qed.

Lemma update_status_relays_witness :
  let '(st1, out) :=
    update_status Demo.later Demo.two_rooms "A" (VObj [("mood", VStr "ok")]) in
  received "C" out
  = [("user_status_update",
      VObj [("userId",
             VStr (id (getUserForSocket Demo.later "A" Demo.two_rooms).1));
            ("status", VUndefined);
            ("timestamp", VStr (iso Demo.later))])]
  ∧ received "A" out
    = [("status_updated",
        VObj [("status", VUndefined);
              ("message", VStr "Status updated successfully")])]
  ∧ st1 = (getUserForSocket Demo.later "A" Demo.two_rooms).2.
Proof.
  apply (update_status_relays Demo.later Demo.two_rooms "A" "C"
           (VObj [("mood", VStr "ok")])).
  - reflexivity.
  - vm_compute. reflexivity.
  - discriminate.
Defined.

Lemma update_profile_members e st socket data room :
  Sio.members (update_profile e st socket data).1 room = Sio.members st room.
Proof.
  destruct (JS.nullish data) eqn:Hd.
  - unfold update_profile, destructure. by rewrite Hd.
  - rewrite update_profile_run by done. cbn.
    apply getUserForSocket_members.
Qed.

Lemma update_profile_user e e' st socket data :
  JS.nullish data = false →
  (getUserForSocket e' socket (update_profile e st socket data).1).1
  = with_profile data (getUserForSocket e socket st).1.
Proof.
  intros Hd. rewrite update_profile_run by done. cbv zeta. cbn [fst].
  unfold getUserForSocket at 1. cbn [user set_user].
  by rewrite lookup_insert_eq.
Qed.

(** X14. A name set with [update_profile] is the one later packets
    carry: after [update_profile] with a truthy [firstName], a
    [send_message] of the same socket, to a room id that prints as
    [text], reaches the room [room:text] with that value as
    [message.sender.firstName]. *)
Theorem profile_shows_in_messages e e' st sender member profile data text :
  JS.nullish profile = false →
  JS.truthy (JS.get "firstName" profile) = true →
  JS.nullish data = false →
  JS.truthy (JS.get "roomId" data) = true →
  JS.truthy (JS.get "content" data) = true →
  JS.toString (JS.get "roomId" data) = Normal text →
  member ∈ Sio.members st ("room:" +:+ text) →
  member ∈ connected st →
  getRoomName (JS.get "roomId" data) = Normal ("room:" +:+ text)
  ∧ ∃ message,
      received member
        (send_message e' (update_profile e st sender profile).1 sender data).2
      = [("message_sent", VObj [("message", message)]);
         ("new_message", message)]
      ∧ JS.get "firstName" (JS.get "sender" message)
        = JS.get "firstName" profile.
Proof.
  intros Hp Hf Hd Hr Hc Hn Hm Hconn.
  split; [by apply getRoomName_of_text|].
  exists (message_of e' (with_profile profile (getUserForSocket e sender st).1)
            data text).
  split.
  - rewrite (send_message_received _ _ _ _ text) by done.
    rewrite update_profile_connected, update_profile_members,
      update_profile_user by done.
    by rewrite decide_True by set_solver.
  - cbn. unfold assigned. by rewrite Hf.
Qed.

Lemma profile_shows_in_messages_witness :
  getRoomName (VStr "r1") = Normal "room:r1"
  ∧ ∃ message,
      received "B"
        (send_message Demo.later
           (update_profile Demo.env Demo.two_rooms "A"
              (VObj [("firstName", VStr "Ada")])).1
           "A" (VObj [("roomId", VStr "r1"); ("content", VStr "hi")])).2
      = [("message_sent", VObj [("message", message)]);
         ("new_message", message)]
      ∧ JS.get "firstName" (JS.get "sender" message) = VStr "Ada".
Proof.
  apply (profile_shows_in_messages Demo.env Demo.later Demo.two_rooms "A" "B"
           (VObj [("firstName", VStr "Ada")])
           (VObj [("roomId", VStr "r1"); ("content", VStr "hi")]) "r1").
  - reflexivity.
  - reflexivity.
  - reflexivity.
  - reflexivity.
  - reflexivity.
  - reflexivity.
  - vm_compute. reflexivity.
  - vm_compute. reflexivity.
Defined.

(** ** Announcing a new room *)

Lemma create_room_packets e st socket data :
  JS.nullish data = false →
  JS.truthy (JS.get "name" data) = true →
  (create_room e st socket data).2
  = (Sio.io_emit (create_room e st socket data).1 "room_created"
       (VObj [("room",
               VObj [("id", VStr (room_id e));
                     ("name", JS.get "name" data);
                     ("description", JS.get "description" data);
                     ("type", JS.dflt (JS.get "type" data) (VStr "public"));
                     ("createdBy", user_name (getUserForSocket e socket st).1);
                     ("memberCount", VNum 1);
                     ("createdAt", VStr (iso e))])])
     ++ Sio.emit socket "room_created_success"
          (VObj [("room",
                  VObj [("id", VStr (room_id e));
                        ("name", JS.get "name" data);
                        ("description", JS.get "description" data);
                        ("type", JS.dflt (JS.get "type" data) (VStr "public"));
                        ("createdById",
                         VStr (id (getUserForSocket e socket st).1));
                        ("maxMembers",
                         JS.dflt (JS.get "maxMembers" data) (VNum 100));
                        ("createdAt", VStr (iso e))]);
                 ("message", VStr "Room created successfully")]))%list.
Proof.
  intros Hd Hn. unfold create_room, destructure. rewrite Hd, Hn. simpl.
  by destruct (getUserForSocket e socket st).
Qed.

Lemma create_room_connected e st socket data :
  connected (create_room e st socket data).1 = connected st.
Proof.
  unfold create_room, destructure.
  destruct (JS.nullish data); [done|].
  destruct (JS.truthy _); [|done]; simpl.
  pose proof (getUserForSocket_connected e socket st).
  by destruct (getUserForSocket e socket st).
Qed.

(** X15. [create_room] announces the room to everybody: every connected
    socket, in a room or not, receives one [room_created] packet with the
    new id and [memberCount] 1, and the creator receives
    [room_created_success] after it. *)
Theorem create_room_is_announced_to_all e st creator other data :
  JS.nullish data = false →
  JS.truthy (JS.get "name" data) = true →
  creator ∈ connected st → other ∈ connected st → other ≠ creator →
  let out := (create_room e st creator data).2 in
  ∃ announced success,
    received other out = [("room_created", announced)]
    ∧ received creator out
      = [("room_created", announced); ("room_created_success", success)]
    ∧ JS.get "id" (JS.get "room" announced) = VStr (room_id e)
    ∧ JS.get "name" (JS.get "room" announced) = JS.get "name" data
    ∧ JS.get "memberCount" (JS.get "room" announced) = VNum 1
    ∧ JS.get "id" (JS.get "room" success) = VStr (room_id e).
Proof.
  intros Hd Hn Hc Ho Hne out. unfold out.
  rewrite create_room_packets by done.
  rewrite !received_app, !received_emit. unfold Sio.io_emit.
  rewrite !received_send, create_room_connected.
  rewrite !(decide_True (P := _ ∈ connected st)) by done.
  rewrite (decide_True (P := creator = creator)) by done.
  rewrite (decide_False (P := creator = other)) by congruence.
  do 2 eexists.
  split; [reflexivity|]. split; [reflexivity|]. repeat split.
Qed.

Lemma create_room_is_announced_to_all_witness :
  let out :=
    (create_room Demo.later Demo.two_rooms "A" (VObj [("name", VStr "Den")])).2 in
  ∃ announced success,
    received "C" out = [("room_created", announced)]
    ∧ received "A" out
      = [("room_created", announced); ("room_created_success", success)]
    ∧ JS.get "id" (JS.get "room" announced) = VStr (room_id Demo.later)
    ∧ JS.get "name" (JS.get "room" announced) = VStr "Den"
    ∧ JS.get "memberCount" (JS.get "room" announced) = VNum 1
    ∧ JS.get "id" (JS.get "room" success) = VStr (room_id Demo.later).
Proof.
  apply (create_room_is_announced_to_all Demo.later Demo.two_rooms "A" "C"
           (VObj [("name", VStr "Den")])).
  - reflexivity.
  - reflexivity.
  - vm_compute. reflexivity.
  - vm_compute. reflexivity.
  - discriminate.
Defined.

(** ** Refusals *)

(** X16. Every handler that requires fields refuses a payload in which
    one of them is missing or falsy: the sender receives one [error]
    packet with the handler's message, nobody else receives anything, and
    the state is unchanged. *)
Theorem missing_field_is_refused h fields msg e st socket data field :
  (h, fields, msg) ∈ validated →
  JS.nullish data = false →
  field ∈ fields →
  JS.truthy (JS.get field data) = false →
  h e st socket data
  = (st, [mkDelivery socket "error" (VObj [("message", VStr msg)])]).
Proof.
  intros Hin Hd Hf Ht. unfold validated in Hin.
  list_cases Hin; injection Hin as -> -> ->;
    list_cases Hf; subst field;
    unfold join_room, leave_room, send_message, edit_message, delete_message,
      create_room, join_room_request, leave_room_request, get_room_members,
      get_room_info, update_room, destructure;
    rewrite Hd, ?Ht; cbn [negb orb];
    rewrite ?orb_true_r; reflexivity.
Qed.

Lemma missing_field_is_refused_witness :
  edit_message Demo.env Demo.two_rooms "A"
    (VObj [("messageId", VStr "m1"); ("content", VStr "")])
  = (Demo.two_rooms,
     [mkDelivery "A" "error"
        (VObj [("message", VStr "Message ID and content are required")])]).
Proof.
  apply (missing_field_is_refused edit_message ["messageId"; "content"]
           "Message ID and content are required" Demo.env Demo.two_rooms "A"
           (VObj [("messageId", VStr "m1"); ("content", VStr "")]) "content").
  - unfold validated. do 3 right. left.
  - reflexivity.
  - right. left.
  - reflexivity.
Defined.

(** X17. Every handler with a [try] block answers a payload that is
    [undefined] or [null] with one [error] packet to the sender, whose
    message is the one of the [TypeError] and whose code is
    "UNKNOWN_ERROR", and leaves the state unchanged. *)
Theorem missing_payload_is_reported h e st socket data :
  h ∈ guarded →
  JS.nullish data = true →
  ∃ field,
    h e st socket data
    = (st, [mkDelivery socket "error"
              (VObj [("message", VStr (message (destructure_error field data)));
                     ("code", VStr "UNKNOWN_ERROR")])]).
Proof.
  intros Hin Hd. unfold guarded, validated in Hin. cbn in Hin.
  assert (Hdata : data = VUndefined ∨ data = VNull)
    by (destruct data; try discriminate; auto).
  list_cases Hin; subst h;
    unfold join_room, leave_room, send_message, edit_message, delete_message,
      create_room, join_room_request, leave_room_request, get_room_members,
      get_room_info, update_room, update_status, update_profile, destructure;
    rewrite Hd; eexists; destruct Hdata as [-> | ->]; reflexivity.
Qed.

Lemma missing_payload_is_reported_witness :
  ∃ field,
    update_status Demo.env Demo.two_rooms "A" VNull
    = (Demo.two_rooms,
       [mkDelivery "A" "error"
          (VObj [("message", VStr (message (destructure_error field VNull)));
                 ("code", VStr "UNKNOWN_ERROR")])]).
Proof.
  apply (missing_payload_is_reported update_status Demo.env Demo.two_rooms "A"
           VNull).
  - unfold guarded, validated. cbn. do 11 right. left.
  - reflexivity.
Defined.

(** ** What the handlers leave alone *)

Lemma addressed_app st socket out1 out2 :
  addressed st socket out1 → addressed st socket out2 →
  addressed st socket (out1 ++ out2).
Proof. intros H1 H2 d [?|?]%elem_of_app; auto. Qed.

Lemma addressed_nil st socket : addressed st socket [].
Proof. intros d Hd. by apply elem_of_nil in Hd. Qed.

Lemma addressed_emit st socket ev p : addressed st socket (Sio.emit socket ev p).
Proof. intros d ->%list_elem_of_singleton. by left. Qed.

Lemma addressed_send st socket to ev p :
  to ⊆ connected st → addressed st socket (Sio.send to ev p).
Proof.
  intros Hsub d [r [-> Hr]]%list_elem_of_fmap. right.
  apply elem_of_elements in Hr. simpl. set_solver.
Qed.

Lemma addressed_own_rooms st st' socket ev p :
  connected st' = connected st →
  addressed st socket (emit_to_own_rooms st' socket ev p).
Proof.
  intros Hc. unfold emit_to_own_rooms.
  induction (socket_rooms st' socket) as [|room l IH]; simpl.
  - apply addressed_nil.
  - apply addressed_app; [|done].
    destruct (String.prefix _ _); [|apply addressed_nil].
    apply addressed_send. rewrite Hc. set_solver.
Qed.

(** The state and the packets of every listener. *)
Lemma listeners_effect name h e st socket data st' out :
  (name, h) ∈ listeners →
  h e st socket data = Normal (st', out) →
  sender_effect e socket st st' ∧ addressed st socket out.
Proof.
  intros Hin Hrun. unfold listeners in Hin.
  pose proof (getUserForSocket_connected e socket st) as Hc.
  pose proof (surjective_pairing (getUserForSocket e socket st)) as Hg.
  list_cases Hin; injection Hin as -> ->; open_handler Hrun;
    try discriminate;
    try (rewrite Hg in Hrun; cbv beta iota zeta in Hrun);
    open_completions Hrun;
    try discriminate;
    injection Hrun as <- <-;
    (split;
     [ first [ apply eff_none | apply eff_user | apply eff_join
             | apply eff_leave | by apply eff_profile ]
     | unfold Sio.to_emit, Sio.io_to_emit, Sio.io_emit, Sio.broadcast_emit;
       repeat apply addressed_app;
       first [ apply addressed_emit
             | apply addressed_nil
             | by apply addressed_own_rooms
             | apply addressed_send;
               cbn [connected Sio.join Sio.set_rooms set_user];
               rewrite ?connected_leave, ?Hc; set_solver ] ]).
Qed.

Lemma effect_connected e socket st st' :
  sender_effect e socket st st' → connected st' = connected st.
Proof.
  destruct 1; cbn [connected Sio.join Sio.set_rooms set_user];
    rewrite ?connected_leave, ?getUserForSocket_connected; done.
Qed.

Lemma getUserForSocket_other_user e socket st other :
  other ≠ socket →
  user (getUserForSocket e socket st).2 !! other = user st !! other.
Proof.
  intros Hne. unfold getUserForSocket.
  destruct (user st !! socket); simpl; [done|].
  by rewrite lookup_insert_ne.
Qed.

Lemma effect_other_user e socket st st' other :
  sender_effect e socket st st' → other ≠ socket →
  user st' !! other = user st !! other.
Proof.
  intros Heff Hne.
  destruct Heff; cbn [user Sio.join Sio.set_rooms set_user];
    rewrite ?user_leave, ?lookup_insert_ne by done;
    try done; by apply getUserForSocket_other_user.
Qed.

Lemma effect_other_members e socket st st' other room :
  sender_effect e socket st st' → other ≠ socket →
  other ∈ Sio.members st' room ↔ other ∈ Sio.members st room.
Proof.
  intros Heff Hne. destruct Heff as [| |r|r|u Hu].
  - done.
  - by rewrite getUserForSocket_members.
  - rewrite members_join. destruct (decide (r = room)) as [->|];
      rewrite getUserForSocket_members; set_solver.
  - rewrite members_leave. destruct (decide (r = room)) as [->|];
      rewrite getUserForSocket_members; set_solver.
  - unfold Sio.members. cbn [rooms set_user].
    by rewrite getUserForSocket_rooms.
Qed.

(** X18. A handler acts on the socket that sent the event and on no
    other: whatever the event and the payload, the connected sockets are
    the same afterwards, and every other socket keeps its user and is in
    exactly the rooms it was in. *)
Theorem listeners_touch_only_the_sender name h e st socket data st' out other :
  (name, h) ∈ listeners →
  h e st socket data = Normal (st', out) →
  other ≠ socket →
  connected st' = connected st
  ∧ user st' !! other = user st !! other
  ∧ ∀ room, other ∈ Sio.members st' room ↔ other ∈ Sio.members st room.
Proof.
  intros Hin Hrun Hne.
  destruct (listeners_effect _ _ _ _ _ _ _ _ Hin Hrun) as [Heff _].
  split; [by eapply effect_connected|].
  split; [by eapply effect_other_user|].
  intros room. by eapply effect_other_members.
Qed.

Lemma listeners_touch_only_the_sender_witness :
  connected
    (leave_room Demo.later Demo.two_rooms "A" (VObj [("roomId", VStr "r1")])).1
  = connected Demo.two_rooms
  ∧ user
      (leave_room Demo.later Demo.two_rooms "A" (VObj [("roomId", VStr "r1")])).1
      !! "B"
    = user Demo.two_rooms !! "B"
  ∧ ∀ room,
      "B" ∈ Sio.members
              (leave_room Demo.later Demo.two_rooms "A"
                 (VObj [("roomId", VStr "r1")])).1 room
      ↔ "B" ∈ Sio.members Demo.two_rooms room.
Proof.
  apply (listeners_touch_only_the_sender "leave_room"
           (fun e st s d => Normal (leave_room e st s d))
           Demo.later Demo.two_rooms "A" (VObj [("roomId", VStr "r1")])
           (leave_room Demo.later Demo.two_rooms "A"
              (VObj [("roomId", VStr "r1")])).1
           (leave_room Demo.later Demo.two_rooms "A"
              (VObj [("roomId", VStr "r1")])).2
           "B").
  - unfold listeners. right. left.
  - reflexivity.
  - discriminate.
Defined.

Lemma addressed_received st socket out sid :
  addressed st socket out → sid ≠ socket → sid ∉ connected st →
  received sid out = [].
Proof.
  intros Ha Hne Hnc. unfold received.
  induction out as [|d out IH]; [done|]. simpl.
  destruct (decide (dest d = sid)) as [Hd|Hd].
  - exfalso. destruct (Ha d) as [?|?]; [left|congruence|congruence].
  - apply IH. intros d' Hd'. apply Ha. by right.
Qed.

(** X19. No handler sends a packet to a socket that is not connected:
    whatever the event and the payload, a socket that is neither
    connected nor the sender receives nothing. *)
Theorem nothing_is_sent_to_the_disconnected name h e st socket data st' out sid :
  (name, h) ∈ listeners →
  h e st socket data = Normal (st', out) →
  sid ≠ socket → sid ∉ connected st →
  received sid out = [].
Proof.
  intros Hin Hrun Hne Hnc.
  destruct (listeners_effect _ _ _ _ _ _ _ _ Hin Hrun) as [_ Ha].
  by eapply addressed_received.
Qed.

Lemma nothing_is_sent_to_the_disconnected_witness :
  received "A"
    (send_message Demo.env (transport_disconnect Demo.later Demo.two_rooms "A").1
       "B" (VObj [("roomId", VStr "r1"); ("content", VStr "hi")])).2
  = [].
Proof.
  apply (nothing_is_sent_to_the_disconnected "send_message"
           (fun e st s d => Normal (send_message e st s d))
           Demo.env (transport_disconnect Demo.later Demo.two_rooms "A").1
           "B" (VObj [("roomId", VStr "r1"); ("content", VStr "hi")])
           (send_message Demo.env
              (transport_disconnect Demo.later Demo.two_rooms "A").1
              "B" (VObj [("roomId", VStr "r1"); ("content", VStr "hi")])).1).
  - unfold listeners. do 2 right. left.
  - reflexivity.
  - discriminate.
  - vm_compute. discriminate.
Defined.

(** ** Invariants of the server *)

Lemma adapter_ok_join socket room st :
  socket ∈ connected st → adapter_ok st → adapter_ok (Sio.join socket room st).
Proof.
  intros Hc Hok r m. unfold Sio.join; cbn [rooms connected Sio.set_rooms].
  rewrite lookup_insert. destruct (decide (room = r)) as [->|Hne].
  - intros [= <-]. split; [set_solver|].
    unfold Sio.members. destruct (rooms st !! r) as [m0|] eqn:Hm; simpl.
    + destruct (Hok r m0 Hm). set_solver.
    + set_solver.
  - apply Hok.
Qed.

Lemma adapter_ok_leave socket room st :
  adapter_ok st → adapter_ok (Sio.leave socket room st).
Proof.
  intros Hok r m. rewrite rooms_leave, connected_leave.
  destruct (rooms st !! room) as [m0|] eqn:Hm; [|apply Hok].
  destruct (decide (m0 ∖ {[socket]} = ∅)) as [He|He].
  - intros [_ Hl]%lookup_delete_Some. by apply (Hok r m).
  - rewrite lookup_insert. destruct (decide (room = r)) as [->|Hne].
    + intros [= <-]. split; [done|]. destruct (Hok r m0 Hm). set_solver.
    + apply Hok.
Qed.

Lemma adapter_ok_rooms st st' :
  rooms st' = rooms st → connected st' = connected st →
  adapter_ok st → adapter_ok st'.
Proof. intros Hr Hc Hok r m. rewrite Hr, Hc. apply Hok. Qed.

Lemma effect_adapter_ok e socket st st' :
  sender_effect e socket st st' → socket ∈ connected st →
  adapter_ok st → adapter_ok st'.
Proof.
  intros Heff Hc Hok.
  assert (Hok' : adapter_ok (getUserForSocket e socket st).2).
  { eapply adapter_ok_rooms; [apply getUserForSocket_rooms
                             |apply getUserForSocket_connected|done]. }
  destruct Heff; [done|done| | |].
  - apply adapter_ok_join; [by rewrite getUserForSocket_connected|done].
  - by apply adapter_ok_leave.
  - by eapply adapter_ok_rooms.
Qed.

Lemma adapter_ok_cleanup socket st :
  adapter_ok st → adapter_ok (Sio.cleanup socket st).
Proof.
  intros Hok r m. unfold Sio.cleanup, Sio.leaveAll; simpl.
  intros [Hl Hne]%map_lookup_filter_Some. simpl in Hne.
  rewrite lookup_fmap in Hl.
  destruct (rooms st !! r) as [m0|] eqn:Hm; simpl in Hl; [|done].
  injection Hl as <-. split; [done|]. destruct (Hok r m0 Hm). set_solver.
Qed.

Lemma members_cleanup socket st other room :
  other ∈ Sio.members (Sio.cleanup socket st) room
  ↔ other ≠ socket ∧ other ∈ Sio.members st room.
Proof.
  unfold Sio.members, Sio.cleanup, Sio.leaveAll; simpl.
  destruct (rooms st !! room) as [m0|] eqn:Hm.
  - destruct (decide (m0 ∖ {[socket]} = ∅)) as [He|He].
    + rewrite (proj2 (map_lookup_filter_None _ _ _)).
      * simpl. set_solver.
      * right. intros x. rewrite lookup_fmap, Hm. simpl.
        intros [= <-]. simpl. tauto.
    + rewrite (map_lookup_filter_Some_2 _ _ _ (m0 ∖ {[socket]})).
      * simpl. set_solver.
      * by rewrite lookup_fmap, Hm.
      * done.
  - rewrite (proj2 (map_lookup_filter_None _ _ _)).
    + simpl. set_solver.
    + left. by rewrite lookup_fmap, Hm.
Qed.

Lemma transport_disconnect_state e st socket :
  socket ∈ connected st →
  (transport_disconnect e st socket).1
  = (getUserForSocket e socket (Sio.cleanup socket st)).2.
Proof.
  intros Hc. unfold transport_disconnect. rewrite decide_True by done.
  by rewrite disconnect_run.
Qed.

Lemma users_ok_getUserForSocket e socket st :
  users_ok st → users_ok (getUserForSocket e socket st).2.
Proof.
  intros Hok sid u. unfold getUserForSocket.
  destruct (user st !! socket) eqn:Hu; cbn [snd user]; [apply Hok|].
  rewrite lookup_insert. destruct (decide (socket = sid)) as [->|Hne].
  - by intros [= <-].
  - apply Hok.
Qed.

Lemma users_ok_user st st' : user st' = user st → users_ok st → users_ok st'.
Proof. intros Hu Hok sid u. rewrite Hu. apply Hok. Qed.

Lemma getUserForSocket_id e socket st :
  users_ok st → id (getUserForSocket e socket st).1 = socket.
Proof.
  intros Hok. unfold getUserForSocket.
  destruct (user st !! socket) as [u|] eqn:Hu; [by apply Hok|done].
Qed.

Lemma effect_users_ok e socket st st' :
  sender_effect e socket st st' → users_ok st → users_ok st'.
Proof.
  intros Heff Hok.
  pose proof (users_ok_getUserForSocket e socket st Hok) as Hok'.
  destruct Heff as [| |r|r|u Hu]; [done|done| | |].
  - by eapply users_ok_user.
  - eapply users_ok_user; [apply user_leave|done].
  - intros sid u'. cbn [user set_user]. rewrite lookup_insert.
    destruct (decide (socket = sid)) as [->|Hne].
    + intros [= <-]. rewrite Hu. by apply getUserForSocket_id.
    + apply Hok'.
Qed.

Lemma step_keeps_invariants st st' :
  step st st' → adapter_ok st ∧ users_ok st → adapter_ok st' ∧ users_ok st'.
Proof.
  intros Hstep [Ha Hu]. destruct Hstep as [s st Hs Hnone|n h e s d st st' out Hin Hc Hrun|e s st].
  - split; [|done]. intros r m Hm. destruct (Ha r m Hm).
    cbn [connected transport_connect]. set_solver.
  - destruct (listeners_effect _ _ _ _ _ _ _ _ Hin Hrun) as [Heff _].
    split; [by eapply effect_adapter_ok|by eapply effect_users_ok].
  - destruct (decide (s ∈ connected st)) as [Hc|Hc].
    + rewrite transport_disconnect_state by done. split.
      * eapply adapter_ok_rooms; [apply getUserForSocket_rooms
                                 |apply getUserForSocket_connected|].
        by apply adapter_ok_cleanup.
      * apply users_ok_getUserForSocket. by eapply users_ok_user.
    + unfold transport_disconnect. by rewrite decide_False.
Qed.

(** X20. In every state the server can reach from its start by
    connections, events and disconnects, the rooms are in order (no room
    is empty, and every member of a room is a connected socket, so no
    membership outlives its connection) and the user of each socket
    carries the socket's id, which is the [userId] the packets of that
    socket bear. *)
Theorem reachable_states_are_in_order st :
  reachable st →
  adapter_ok st
  ∧ users_ok st
  ∧ ∀ e socket, id (getUserForSocket e socket st).1 = socket.
Proof.
  intros Hreach.
  assert (Hinv : adapter_ok st ∧ users_ok st).
  { unfold reachable in Hreach. revert st Hreach.
    apply (rtc_ind_r (fun st => adapter_ok st ∧ users_ok st) initial).
    - split; intros k x Hk; cbn in Hk; by rewrite lookup_empty in Hk.
    - intros st st' _ Hstep Hinv. by eapply step_keeps_invariants. }
  destruct Hinv as [Ha Hu]. split; [done|]. split; [done|].
  intros e socket. by apply getUserForSocket_id.
Qed.

Lemma reachable_states_are_in_order_witness :
  let st :=
    (join_room Demo.env (transport_connect "A" initial) "A"
       (VObj [("roomId", VStr "r1")])).1 in
  adapter_ok st
  ∧ users_ok st
  ∧ ∀ e socket, id (getUserForSocket e socket st).1 = socket.
Proof.
  apply (reachable_states_are_in_order
           (join_room Demo.env (transport_connect "A" initial) "A"
              (VObj [("roomId", VStr "r1")])).1).
  unfold reachable.
  apply rtc_l with (transport_connect "A" initial).
  - apply step_connect; vm_compute; [discriminate|reflexivity].
  - apply rtc_once.
    apply (step_event "join_room" (fun e st s d => Normal (join_room e st s d))
             Demo.env "A" (VObj [("roomId", VStr "r1")])
             (transport_connect "A" initial) _
             (join_room Demo.env (transport_connect "A" initial) "A"
                (VObj [("roomId", VStr "r1")])).2).
    + unfold listeners. left.
    + vm_compute. reflexivity.
    + reflexivity.
Defined.

(** X21. A disconnect takes the socket out of everything and nobody else
    out of anything: after the transport has signalled the disconnect of
    a connected socket, it is not connected and in no room at all, while
    every other socket is connected as before and in the rooms it was
    in. *)
Theorem disconnect_removes_the_socket_only e st socket other room :
  socket ∈ connected st → other ≠ socket →
  let st1 := (transport_disconnect e st socket).1 in
  (socket ∉ connected st1)
  ∧ (socket ∉ Sio.members st1 room)
  ∧ (other ∈ connected st1 ↔ other ∈ connected st)
  ∧ (other ∈ Sio.members st1 room ↔ other ∈ Sio.members st room).
Proof.
  intros Hc Hne st1. unfold st1.
  rewrite transport_disconnect_state by done.
  rewrite getUserForSocket_connected, !getUserForSocket_members.
  rewrite !members_cleanup. cbn [connected Sio.cleanup Sio.leaveAll Sio.set_rooms].
  set_solver.
Qed.

Lemma disconnect_removes_the_socket_only_witness :
  let st1 := (transport_disconnect Demo.later Demo.two_rooms "A").1 in
  ("A" ∉ connected st1)
  ∧ ("A" ∉ Sio.members st1 "room:r2")
  ∧ ("B" ∈ connected st1 ↔ "B" ∈ connected Demo.two_rooms)
  ∧ ("B" ∈ Sio.members st1 "room:r2" ↔ "B" ∈ Sio.members Demo.two_rooms "room:r2").
Proof.
  apply (disconnect_removes_the_socket_only Demo.later Demo.two_rooms "A" "B"
           "room:r2").
  - vm_compute. reflexivity.
  - discriminate.
Defined.

(** ** Room names *)

Lemma getUserRoomName_text userId channel :
  getUserRoomName userId = Normal channel →
  ∃ text, JS.toString userId = Normal text ∧ channel = "user:" +:+ text.
Proof.
  unfold getUserRoomName. destruct (JS.toString userId) as [text|]; [|done].
  intros [= <-]. by exists text.
Qed.

(** X22. The channel of a room and the private channel of a user never
    coincide: whenever [getRoomName] and [getUserRoomName] return, the
    room name is "room:" followed by what the room id prints as, and so
    starts with "room:", which is what [edit_message] and
    [delete_message] look for; the user's channel is "user:" followed by
    what the user id prints as, does not start with "room:", and is
    another name than the room's. *)
Theorem room_and_user_channels_are_apart roomId userId room channel :
  getRoomName roomId = Normal room →
  getUserRoomName userId = Normal channel →
  (∃ text, JS.toString roomId = Normal text ∧ room = "room:" +:+ text)
  ∧ (∃ text, JS.toString userId = Normal text ∧ channel = "user:" +:+ text)
  ∧ String.prefix "room:" room = true
  ∧ String.prefix "room:" channel = false
  ∧ room ≠ channel.
Proof.
  intros Hr Hu.
  pose proof (getRoomName_text _ _ Hr) as [t [Ht ->]].
  pose proof (getUserRoomName_text _ _ Hu) as [t' [Ht' ->]].
  split; [by exists t|]. split; [by exists t'|].
  split; [|split].
  - cbn. by destruct t.
  - reflexivity.
  - discriminate.
Qed.

Lemma room_and_user_channels_are_apart_witness :
  (∃ text, JS.toString (VNum 7) = Normal text ∧ "room:7" = "room:" +:+ text)
  ∧ (∃ text, JS.toString (VStr "7") = Normal text ∧ "user:7" = "user:" +:+ text)
  ∧ String.prefix "room:" "room:7" = true
  ∧ String.prefix "room:" "user:7" = false
  ∧ "room:7" ≠ "user:7".
Proof.
  apply (room_and_user_channels_are_apart (VNum 7) (VStr "7") "room:7" "user:7").
  - vm_compute. reflexivity.
  - reflexivity.
Defined.

(** X23. Room ids are compared by what they print: a socket that joined
    with one room id receives the messages sent to any room id that
    prints the same, such as the number 1 and the string "1". *)
Theorem room_ids_are_compared_as_strings e e' st A B r1 r2 text :
  JS.truthy r1 = true → JS.truthy r2 = true →
  JS.toString r1 = Normal text →
  JS.toString r2 = Normal text →
  A ∈ connected st →
  ∃ message,
    received A
      (send_message e' (join_room e st A (VObj [("roomId", r1)])).1 B
         (VObj [("roomId", r2); ("content", VStr "x")])).2
    = [("message_sent", VObj [("message", message)]); ("new_message", message)]
    ∧ JS.get "roomId" message = r2.
Proof.
  intros H1 H2 Ht1 Ht2 HA.
  eexists. split.
  - rewrite (send_message_received _ _ _ _ text) by done.
    rewrite (join_room_members _ _ _ _ ("room:" +:+ text)), join_room_connected
      by (done || by apply getRoomName_of_text).
    rewrite (decide_True (P := "room:" +:+ text = "room:" +:+ text)) by done.
    rewrite decide_True by set_solver. reflexivity.
  - reflexivity.
Qed.

Lemma room_ids_are_compared_as_strings_witness :
  ∃ message,
    received "A"
      (send_message Demo.later
         (join_room Demo.env Demo.fresh "A" (VObj [("roomId", VNum 1)])).1 "B"
         (VObj [("roomId", VStr "1"); ("content", VStr "x")])).2
    = [("message_sent", VObj [("message", message)]); ("new_message", message)]
    ∧ JS.get "roomId" message = VStr "1".
Proof.
  apply (room_ids_are_compared_as_strings Demo.env Demo.later Demo.fresh
           "A" "B" (VNum 1) (VStr "1") "1").
  - reflexivity.
  - reflexivity.
  - vm_compute. reflexivity.
  - reflexivity.
  - vm_compute. reflexivity.
Defined.

(** ** [sanitizeMessage] *)

Lemma assoc_app k (l1 l2 : list (string * value)) :
  JS.assoc k (l1 ++ l2)
  = if decide (k ∈ l1.*1) then JS.assoc k l1 else JS.assoc k l2.
Proof.
  induction l1 as [|[k' v] l1 IH].
  - rewrite fmap_nil. change ([] ++ l2)%list with l2.
    destruct (decide (k ∈ [])) as [Hin|]; [inversion Hin|done].
  - cbn [app JS.assoc]. rewrite fmap_cons. cbn [fst].
    destruct (String.eqb k k') eqn:Hk.
    + apply String.eqb_eq in Hk as ->.
      destruct (decide (k' ∈ k' :: _)) as [|Hn]; [done|].
      exfalso. apply Hn. left.
    + apply String.eqb_neq in Hk. rewrite IH.
      destruct (decide (k ∈ l1.*1)) as [Hin|Hin];
        destruct (decide (k ∈ k' :: l1.*1)) as [Hin'|Hin']; try done.
      * exfalso. apply Hin'. by right.
      * apply elem_of_cons in Hin' as [?|?]; done.
Qed.

Lemma assoc_without k k' (props : list (string * value)) :
  k ≠ k' → JS.assoc k (without k' props) = JS.assoc k props.
Proof.
  intros Hne. unfold without.
  induction props as [|[k0 v] props IH]; [done|].
  rewrite filter_cons. simpl.
  destruct (decide (k0 ≠ k')) as [H0|H0]; simpl.
  - by rewrite IH.
  - apply dec_stable in H0 as ->.
    rewrite IH. by apply String.eqb_neq in Hne as ->.
Qed.

Lemma assoc_notin k (props : list (string * value)) :
  k ∉ props.*1 → JS.assoc k props = VUndefined.
Proof.
  induction props as [|[k' v] props IH]; [done|].
  rewrite fmap_cons. cbn [fst JS.assoc]. intros Hn.
  destruct (String.eqb k k') eqn:Hk.
  - apply String.eqb_eq in Hk as ->. exfalso. apply Hn. left.
  - apply IH. intros Hin. apply Hn. by right.
Qed.

Lemma not_in_without k (props : list (string * value)) :
  k ∉ (without k props).*1.
Proof.
  unfold without. intros [[k' v] [Hk Hin]]%list_elem_of_fmap.
  apply list_elem_of_filter in Hin as [Hne _]. simpl in *. congruence.
Qed.

Lemma without_without_sender k (props : list (string * value)) v :
  without k (without k props ++ [(k, v)]) = without k props.
Proof.
  unfold without. rewrite filter_app, list_filter_filter.
  rewrite filter_cons, decide_False by (simpl; tauto).
  rewrite filter_nil, app_nil_r.
  apply list_filter_iff. simpl. tauto.
Qed.

(** X24. [sanitizeMessage] keeps every field of a message but [sender],
    of which it keeps the id, the first name, the last name and the avatar
    and drops the rest (the e-mail address, the role); sanitizing twice
    is sanitizing once. *)
Theorem sanitizeMessage_trims_the_sender props :
  JS.nullish (JS.assoc "sender" props) = false →
  ∃ clean,
    sanitizeMessage (VObj props) = Normal clean
    ∧ (∀ k, k ≠ "sender" → JS.get k clean = JS.get k (VObj props))
    ∧ JS.get "sender" clean
      = VObj [("id", JS.get "id" (JS.assoc "sender" props));
              ("firstName", JS.get "firstName" (JS.assoc "sender" props));
              ("lastName", JS.get "lastName" (JS.assoc "sender" props));
              ("avatar", JS.get "avatar" (JS.assoc "sender" props))]
    ∧ sanitizeMessage clean = Normal clean.
Proof.
  intros Hs. unfold sanitizeMessage at 1. rewrite Hs.
  eexists. split; [reflexivity|].
  assert (Hsender : ∀ v,
            JS.assoc "sender" (without "sender" props ++ [("sender", v)]) = v).
  { intros v. rewrite assoc_app, decide_False by apply not_in_without. done. }
  split; [|split].
  - intros k Hk. cbn [JS.get]. rewrite assoc_app.
    destruct (decide _).
    + by apply assoc_without.
    + rewrite <- (assoc_without k "sender" props) by done.
      rewrite (assoc_notin k (without "sender" props)) by done.
      cbn [JS.assoc]. by apply String.eqb_neq in Hk as ->.
  - cbn [JS.get]. apply Hsender.
  - unfold sanitizeMessage. rewrite Hsender. cbn [JS.nullish].
    rewrite without_without_sender. reflexivity.
Qed.

Lemma sanitizeMessage_trims_the_sender_witness :
  ∃ clean,
    sanitizeMessage
      (VObj [("content", VStr "hi");
             ("sender", VObj [("id", VStr "A"); ("email", VStr "a@demo.com")])])
    = Normal clean
    ∧ (∀ k, k ≠ "sender" →
         JS.get k clean
         = JS.get k
             (VObj [("content", VStr "hi");
                    ("sender",
                     VObj [("id", VStr "A"); ("email", VStr "a@demo.com")])]))
    ∧ JS.get "sender" clean
      = VObj [("id", VStr "A"); ("firstName", VUndefined);
              ("lastName", VUndefined); ("avatar", VUndefined)]
    ∧ sanitizeMessage clean = Normal clean.
Proof.
  apply (sanitizeMessage_trims_the_sender
           [("content", VStr "hi");
            ("sender", VObj [("id", VStr "A"); ("email", VStr "a@demo.com")])]).
  reflexivity.
Defined.

(** X25. [sanitizeMessage] throws on a message that has no sender: on
    [undefined] and [null], on a value that is not an object, and on an
    object whose [sender] is missing or [null]. *)
Theorem sanitizeMessage_needs_a_sender message :
  JS.nullish (JS.get "sender" message) = true →
  ∃ error, sanitizeMessage message = Throw error.
Proof.
  intros Hs. destruct message; cbn [sanitizeMessage]; eauto.
  cbn [JS.get] in Hs. rewrite Hs. eauto.
Qed.

Lemma sanitizeMessage_needs_a_sender_witness :
  ∃ error, sanitizeMessage (VObj [("content", VStr "hi")]) = Throw error.
Proof.
  apply (sanitizeMessage_needs_a_sender (VObj [("content", VStr "hi")])).
  reflexivity.
Defined.

(** ** The listeners of index.js *)

(** X26. The [try] block of [join_room] and [send_message] does not
    protect the event: when the payload is [undefined] or [null] the
    handler answers with an [error] packet and leaves the state alone,
    and then the listener that [index.js] adds to the same event throws
    a [TypeError] on [data.roomId]. *)
Theorem loggers_throw_after_the_reply e st socket data :
  JS.nullish data = true →
  (∃ p, on_join_room e st socket data
        = ((st, [mkDelivery socket "error" p]),
           Throw (read_error "roomId" data)))
  ∧ (∃ p, on_send_message e st socket data
          = ((st, [mkDelivery socket "error" p]),
             Throw (read_error "roomId" data))).
Proof.
  intros Hd.
  unfold on_join_room, on_send_message, log_join_room, log_send_message,
    join_room, send_message, destructure.
  rewrite Hd. split; eexists; reflexivity.
Qed.

Lemma loggers_throw_after_the_reply_witness :
  (∃ p, on_join_room Demo.env Demo.two_rooms "A" VUndefined
        = ((Demo.two_rooms, [mkDelivery "A" "error" p]),
           Throw (read_error "roomId" VUndefined)))
  ∧ (∃ p, on_send_message Demo.env Demo.two_rooms "A" VUndefined
          = ((Demo.two_rooms, [mkDelivery "A" "error" p]),
             Throw (read_error "roomId" VUndefined))).
Proof.
  apply (loggers_throw_after_the_reply Demo.env Demo.two_rooms "A" VUndefined).
  reflexivity.
Defined.

(** ** A room that was just created *)

Lemma create_room_state e st socket data :
  JS.nullish data = false →
  JS.truthy (JS.get "name" data) = true →
  (create_room e st socket data).1
  = Sio.join socket ("room:" +:+ room_id e)
      (getUserForSocket e socket st).2.
Proof.
  intros Hd Hn. by destruct (create_room_run e st socket data Hd Hn) as [rc ->].
Qed.

(** X27. The id [create_room] returns names a working channel: when the
    creator then sends a message with that id as [roomId], the creator
    receives it, and a socket that has not joined the room does not. *)
Theorem created_room_carries_messages e e' st creator other data content :
  JS.nullish data = false →
  JS.truthy (JS.get "name" data) = true →
  JS.truthy content = true →
  creator ∈ connected st →
  rooms st !! ("room:" +:+ room_id e) = None →
  other ≠ creator →
  let out :=
    (send_message e' (create_room e st creator data).1 creator
       (VObj [("roomId", VStr (room_id e)); ("content", content)])).2 in
  (∃ message,
      received creator out
      = [("message_sent", VObj [("message", message)]);
         ("new_message", message)]
      ∧ JS.get "content" message = content
      ∧ JS.get "roomId" message = VStr (room_id e))
  ∧ received other out = [].
Proof.
  intros Hd Hn Hc Hconn Hfresh Hne out. unfold out.
  assert (Hmem : Sio.members (create_room e st creator data).1
                   ("room:" +:+ room_id e) = {[creator]}).
  { rewrite create_room_state, members_join, decide_True by done.
    rewrite getUserForSocket_members. unfold Sio.members. rewrite Hfresh.
    simpl. set_solver. }
  split.
  - rewrite (send_message_received _ _ _ _ (room_id e)) by done.
    simpl JS.get.
    rewrite Hmem, create_room_connected.
    rewrite decide_True by set_solver.
    eexists. split; [reflexivity|]. split; reflexivity.
  - rewrite (send_message_received _ _ _ _ (room_id e)) by done.
    simpl JS.get.
    rewrite Hmem, create_room_connected.
    rewrite decide_False by set_solver. reflexivity.
Qed.

Lemma created_room_carries_messages_witness :
  let out :=
    (send_message Demo.env
       (create_room Demo.later Demo.two_rooms "A"
          (VObj [("name", VStr "Den")])).1
       "A" (VObj [("roomId", VStr (room_id Demo.later));
                  ("content", VStr "hi")])).2 in
  (∃ message,
      received "A" out
      = [("message_sent", VObj [("message", message)]);
         ("new_message", message)]
      ∧ JS.get "content" message = VStr "hi"
      ∧ JS.get "roomId" message = VStr (room_id Demo.later))
  ∧ received "B" out = [].
Proof.
  apply (created_room_carries_messages Demo.later Demo.env Demo.two_rooms
           "A" "B" (VObj [("name", VStr "Den")]) (VStr "hi")).
  - reflexivity.
  - reflexivity.
  - reflexivity.
  - vm_compute. reflexivity.
  - vm_compute. reflexivity.
  - discriminate.
Defined.

(** ** Updating a profile twice *)

Lemma with_profile_idem data u :
  with_profile data (with_profile data u) = with_profile data u.
Proof.
  unfold with_profile, assigned. destruct u; simpl.
  by destruct (JS.truthy (JS.get "firstName" data)),
       (JS.truthy (JS.get "lastName" data)),
       (JS.truthy (JS.get "avatar" data)).
Qed.

Lemma update_profile_state e st socket data :
  JS.nullish data = false →
  (update_profile e st socket data).1
  = set_user socket (with_profile data (getUserForSocket e socket st).1)
      (getUserForSocket e socket st).2.
Proof. intros Hd. by rewrite update_profile_run. Qed.

Lemma getUserForSocket_present e socket st u :
  user st !! socket = Some u → getUserForSocket e socket st = (u, st).
Proof. intros Hu. unfold getUserForSocket. by rewrite Hu. Qed.

(** X28. [update_profile] is idempotent: sending the same profile a
    second time leaves the server state exactly as the first time left
    it. *)
Theorem update_profile_twice e e' st socket data :
  (update_profile e' (update_profile e st socket data).1 socket data).1
  = (update_profile e st socket data).1.
Proof.
  destruct (JS.nullish data) eqn:Hd.
  - unfold update_profile, destructure. by rewrite Hd.
  - rewrite (update_profile_state e') by done.
    rewrite update_profile_user by done.
    rewrite with_profile_idem.
    rewrite update_profile_state by done.
    rewrite (getUserForSocket_present e' socket _
               (with_profile data (getUserForSocket e socket st).1))
      by apply lookup_insert_eq.
    unfold set_user. cbn [snd connected rooms user userId].
    by rewrite insert_insert_eq.
Qed.

(** ** Room ids that do not print *)

Lemma getRoomName_of_throw roomId error :
  JS.toString roomId = Throw error → getRoomName roomId = Throw error.
Proof. unfold getRoomName. by intros ->. Qed.

(** X29. A truthy room id that cannot be printed into the channel name
    (an object with a [toString] of its own, alone or inside an array)
    is caught by every handler with a [try] block that names the room:
    the handler answers the sender with one [error] packet, message
    "Cannot convert object to primitive value" and code "UNKNOWN_ERROR",
    sends nothing else and joins or leaves nothing; [send_message] does
    so once the content is there.  [typing_start] and [typing_stop] have
    no [try] block and throw. *)
Theorem unprintable_room_id_is_reported e st socket data error :
  JS.nullish data = false →
  JS.truthy (JS.get "roomId" data) = true →
  JS.toString (JS.get "roomId" data) = Throw error →
  let reply :=
    [mkDelivery socket "error"
       (VObj [("message", VStr "Cannot convert object to primitive value");
              ("code", VStr "UNKNOWN_ERROR")])] in
  let st1 := (getUserForSocket e socket st).2 in
  rooms st1 = rooms st
  ∧ connected st1 = connected st
  ∧ join_room e st socket data = (st1, reply)
  ∧ leave_room e st socket data = (st1, reply)
  ∧ send_message e st socket data
    = (if JS.truthy (JS.get "content" data) then (st1, reply)
       else (st, error_packet socket "Room ID and content are required"))
  ∧ join_room_request e st socket data = (st1, reply)
  ∧ leave_room_request e st socket data = (st1, reply)
  ∧ update_room e st socket data = (st1, reply)
  ∧ get_room_info e st socket data = (st, reply)
  ∧ typing_start e st socket data = Throw error
  ∧ typing_stop e st socket data = Throw error.
Proof.
  intros Hd Ht Hn reply st1.
  pose proof (toString_throws _ _ Hn) as ->.
  pose proof (getRoomName_of_throw _ _ Hn) as Hr.
  split; [apply getUserForSocket_rooms|].
  split; [apply getUserForSocket_connected|].
  unfold join_room, leave_room, send_message, join_room_request,
    leave_room_request, update_room, get_room_info, typing_start, typing_stop,
    make_message, make_updated_room, name_or_default, destructure.
  rewrite Hd, Ht, Hr, Hn. cbn [negb orb]. unfold st1.
  destruct (getUserForSocket e socket st) as [u st0]. cbn [fst snd].
  repeat split.
  - by destruct (JS.truthy (JS.get "content" data)).
  - by destruct (JS.truthy (JS.get "name" data)).
Qed.

Lemma unprintable_room_id_is_reported_witness :
  let data := VObj [("roomId", VArr [VObj [("toString", VNum 1)]]);
                    ("content", VStr "hi")] in
  let reply :=
    [mkDelivery "A" "error"
       (VObj [("message", VStr "Cannot convert object to primitive value");
              ("code", VStr "UNKNOWN_ERROR")])] in
  let st1 := (getUserForSocket Demo.later "A" Demo.two_rooms).2 in
  rooms st1 = rooms Demo.two_rooms
  ∧ connected st1 = connected Demo.two_rooms
  ∧ join_room Demo.later Demo.two_rooms "A" data = (st1, reply)
  ∧ leave_room Demo.later Demo.two_rooms "A" data = (st1, reply)
  ∧ send_message Demo.later Demo.two_rooms "A" data = (st1, reply)
  ∧ join_room_request Demo.later Demo.two_rooms "A" data = (st1, reply)
  ∧ leave_room_request Demo.later Demo.two_rooms "A" data = (st1, reply)
  ∧ update_room Demo.later Demo.two_rooms "A" data = (st1, reply)
  ∧ get_room_info Demo.later Demo.two_rooms "A" data = (Demo.two_rooms, reply)
  ∧ typing_start Demo.later Demo.two_rooms "A" data = Throw JS.not_primitive
  ∧ typing_stop Demo.later Demo.two_rooms "A" data = Throw JS.not_primitive.
Proof.
  apply (unprintable_room_id_is_reported Demo.later Demo.two_rooms "A"
           (VObj [("roomId", VArr [VObj [("toString", VNum 1)]]);
                  ("content", VStr "hi")])
           JS.not_primitive).
  - reflexivity.
  - reflexivity.
  - reflexivity.
Defined.

(** X30. A room id is printed as JavaScript prints it: the number 1e21
    names the room "room:1e+21", so a socket that joined with it
    receives what is sent to the room id "1e+21" and nothing of what is
    sent to the room id "1000000000000000000000", while the number 2^53
    + 1 names the same room as 9007199254740992. *)
Theorem numbers_name_rooms_as_they_print :
  let big := VNum (10 ^ 21) in
  let st1 := (join_room Demo.env Demo.fresh "A" (VObj [("roomId", big)])).1 in
  getRoomName big = Normal "room:1e+21"
  ∧ Sio.members st1 "room:1e+21" = {["A"]}
  ∧ (∃ message,
       received "A"
         (send_message Demo.later st1 "B"
            (VObj [("roomId", VStr "1e+21"); ("content", VStr "x")])).2
       = [("message_sent", VObj [("message", message)]);
          ("new_message", message)])
  ∧ received "A"
      (send_message Demo.later st1 "B"
         (VObj [("roomId", VStr "1000000000000000000000");
                ("content", VStr "x")])).2
    = []
  ∧ getRoomName (VNum (2 ^ 53 + 1)) = getRoomName (VNum 9007199254740992).
Proof.
  cbv zeta. split; [vm_compute; reflexivity|].
  split; [vm_compute; reflexivity|].
  split; [eexists; vm_compute; reflexivity|].
  split; vm_compute; reflexivity.
Qed.
